(** * CareerPath AI: the frontend client, its display components and the
      request workflow, embedded in Rocq.

    Sources embedded here:
    - [frontend/src/services/api.js]               ([Api])
    - [frontend/src/components/ResultCard.jsx]     ([ResultCard])
    - the earlier ResultCard variant               ([ResultCardV1])
    - the ErrorAlert component                     ([ErrorAlert])
    - [frontend/src/components/LoadingSpinner.jsx] ([LoadingSpinner])
    - the CareerPathGenerator form component       ([CareerPathGenerator])

    [Js], [React] and [Browser] hold the part of JavaScript, JSX and the
    browser these sources rely on. The Python orchestrator behind
    [POST /api/generate-career-path] is described by the specification
    only; its model lives in [Orchestrator]. *)

From Stdlib Require Import QArith Qcanon.
From stdpp Require Import gmap strings list fin_maps.

Set Warnings "-register-all".
Local Open Scope string_scope.

(* ===================================================================== *)
(** ** JavaScript values, as [response.json()] produces them              *)
(* ===================================================================== *)

Module Js.

(** A number is kept as the text [String(n)] gives for it; truthiness and
    string conversion are the only operations the sources apply to a
    number, and both are functions of that text. *)
Inductive JsValue : Type :=
| JUndefined
| JNull
| JBool (b : bool)
| JNum (repr : string)
| JStr (s : string)
| JArr (elems : list JsValue)
| JObj (props : gmap string JsValue).

(** Errors a promise rejects with or an expression throws. *)
Inductive JsError : Type :=
| TypeError (msg : string)
| SyntaxError (msg : string)
| Error (msg : string).

Definition message (e : JsError) : string :=
  match e with
  | TypeError m | SyntaxError m | Error m => m
  end.

(** Completion of an expression: a value, or a thrown error. *)
Inductive Completion (A : Type) : Type :=
| Normal (a : A)
| Throw (e : JsError).
Arguments Normal {A} a.
Arguments Throw {A} e.

#[global] Instance Completion_ret : MRet Completion := @Normal.
#[global] Instance Completion_bind : MBind Completion := fun A B f c =>
  match c with
  | Normal a => f a
  | Throw e => Throw e
  end.
#[global] Instance Completion_fmap : FMap Completion := fun A B f c =>
  match c with
  | Normal a => Normal (f a)
  | Throw e => Throw e
  end.

(** [ToBoolean]. *)
Definition truthy (v : JsValue) : bool :=
  match v with
  | JUndefined | JNull => false
  | JBool b => b
  | JNum r => negb (String.eqb r "0" || String.eqb r "NaN")
  | JStr s => negb (String.eqb s "")
  | JArr _ | JObj _ => true
  end.

Definition nullish (v : JsValue) : bool :=
  match v with
  | JUndefined | JNull => true
  | _ => false
  end.

(** [a || b] and [a && b] on already evaluated operands; the sources only
    use them with a right operand that cannot throw, or guard the right
    operand themselves (see [ResultCard]). *)
Definition or_js (a b : JsValue) : JsValue := if truthy a then a else b.
Definition and_js (a b : JsValue) : JsValue := if truthy a then b else a.

(** [v.k] on a value that is neither [null] nor [undefined]. The property
    names the sources read (title, skill, courses, status, error,
    message, ...) are not members of the String, Number, Boolean, Array
    or Object prototypes, so only own properties of parsed objects are
    ever found. *)
Definition get (v : JsValue) (k : string) : JsValue :=
  match v with
  | JObj m => default JUndefined (m !! k)
  | _ => JUndefined
  end.

(** [v.k], which throws on [null] and [undefined]. *)
Definition member (v : JsValue) (k : string) : Completion JsValue :=
  if nullish v
  then Throw (TypeError ("Cannot read properties of " +:+
                         (if v is JNull then "null" else "undefined") +:+
                         " (reading '" +:+ k +:+ "')"))
  else Normal (get v k).

(** [v?.k]. *)
Definition optget (v : JsValue) (k : string) : JsValue :=
  if nullish v then JUndefined else get v k.

(** [v === "lit"]. *)
Definition strict_eq_str (v : JsValue) (lit : string) : bool :=
  match v with
  | JStr s => String.eqb s lit
  | _ => false
  end.

Fixpoint join (sep : string) (l : list string) : string :=
  match l with
  | [] => ""
  | [x] => x
  | x :: r => x +:+ sep +:+ join sep r
  end.

(** [String(v)], as [new Error(v)] applies it to its argument. A parsed
    object that has a member of its own named [toString] hides the
    callable one it inherits, and its conversion throws; an array
    converts its elements in order and joins them. *)
Fixpoint ToString (v : JsValue) : Completion string :=
  match v with
  | JUndefined => Normal "undefined"
  | JNull => Normal "null"
  | JBool true => Normal "true"
  | JBool false => Normal "false"
  | JNum r => Normal r
  | JStr s => Normal s
  | JArr l =>
      match (fix elems (l : list JsValue) : Completion (list string) :=
               match l with
               | [] => Normal []
               | x :: r =>
                   match (if nullish x then Normal "" else ToString x) with
                   | Normal t =>
                       match elems r with
                       | Normal ts => Normal (t :: ts)
                       | Throw e => Throw e
                       end
                   | Throw e => Throw e
                   end
               end) l with
      | Normal ts => Normal (join "," ts)
      | Throw e => Throw e
      end
  | JObj m =>
      if bool_decide (is_Some (m !! "toString"))
      then Throw (TypeError "Cannot convert object to primitive value")
      else Normal "[object Object]"
  end.

(** What [throw new Error(v)] throws: the error made of the converted
    message, or what the conversion threw. *)
Definition thrown_Error (v : JsValue) : JsError :=
  match ToString v with
  | Normal text => Error text
  | Throw e => e
  end.

(** Object literal [{ k1: v1, ... }]. *)
Definition obj (l : list (string * JsValue)) : JsValue := JObj (list_to_map l).

End Js.
Export Js.

(* ===================================================================== *)
(** ** React elements, as JSX builds them                                 *)
(* ===================================================================== *)

Module React.

(** An inline style object, in key order. *)
Definition Style : Type := list (string * JsValue).

(** [{ ...a, ...b }]: the keys of [a] keep their place and take the value
    [b] gives them, the keys only [b] has follow. *)
Fixpoint style_get (k : string) (s : Style) : option JsValue :=
  match s with
  | [] => None
  | (k', v) :: r => if String.eqb k' k then Some v else style_get k r
  end.

Definition spread (a b : Style) : Style :=
  (map (fun kv => (kv.1, default kv.2 (style_get kv.1 b))) a ++
   filter (fun kv => style_get kv.1 a = None) b)%list.

Inductive Node : Type :=
| NValue (v : JsValue)   (* [{expr}] evaluating to a plain value *)
| NText (s : string)     (* literal JSX text *)
| NArr (items : list Node)  (* the array a [.map(...)] returns *)
| NElem (tag : string) (key : option nat) (style : Style)
        (attrs : list (string * JsValue)) (children : list Node).

(** React draws nothing for [null], [undefined], booleans and the empty
    string. *)
Definition draws_nothing (n : Node) : bool :=
  match n with
  | NValue JUndefined | NValue JNull | NValue (JBool _) => true
  | NValue (JStr s) => String.eqb s ""
  | _ => false
  end.

(** The values React accepts as a child: anything but a plain object,
    inside arrays too. *)
Fixpoint value_drawable (v : JsValue) : bool :=
  match v with
  | JObj _ => false
  | JArr l => forallb value_drawable l
  | _ => true
  end.

Fixpoint drawable (n : Node) : bool :=
  match n with
  | NValue v => value_drawable v
  | NText _ => true
  | NArr items => forallb drawable items
  | NElem _ _ _ _ children => forallb drawable children
  end.

(** React drawing the element a component returned: it throws an [Error]
    ("Objects are not valid as a React child", followed by what it
    found) when a plain object stands where a child is expected. *)
Definition draw (n : Node) : Completion Node :=
  if drawable n then Normal n
  else Throw (Error "Objects are not valid as a React child").

(** [arr.map((x, index) => f x index)], for a callback that may throw. *)
Fixpoint map_indexed {A B} (f : A → nat → Completion B) (i : nat) (l : list A)
  : Completion (list B) :=
  match l with
  | [] => mret []
  | x :: r => y ← f x i; ys ← map_indexed f (S i) r; mret (y :: ys)
  end.

(** [v.map(cb)] as the components call it: [v] is known to be truthy; any
    truthy value that is not an array has no callable [map]. *)
Definition js_map (name : string) (v : JsValue) (cb : JsValue → nat → Completion Node)
  : Completion Node :=
  match v with
  | JArr l => NArr <$> map_indexed cb 0 l
  | _ => Throw (TypeError (name +:+ ".map is not a function"))
  end.

End React.
Export React.

(* ===================================================================== *)
(** ** ErrorAlert                                                         *)
(* ===================================================================== *)

Module ErrorAlert.

Module styles.
Definition alert : Style :=
  [ ("display", JStr "flex");
    ("alignItems", JStr "center");
    ("gap", JStr "12px");
    ("padding", JStr "16px");
    ("backgroundColor", JStr "#fef2f2");
    ("border", JStr "1px solid #fecaca");
    ("borderRadius", JStr "8px");
    ("color", JStr "#991b1b");
    ("fontSize", JStr "14px") ].
Definition icon : Style :=
  [ ("fontSize", JStr "20px") ].
Definition message : Style :=
  [ ("flex", JNum "1") ].
End styles.

(** [const ErrorAlert = ({ message }) => ...] *)
Definition ErrorAlert (message : JsValue) : Node :=
  if negb (truthy message) then NValue JNull
  else
    NElem "div" None styles.alert []
      [ NElem "span" None styles.icon [] [NText "⚠️"];
        NElem "span" None styles.message [] [NValue message] ].

End ErrorAlert.

(* ===================================================================== *)
(** ** ResultCard (frontend/src/components/ResultCard.jsx)                *)
(* ===================================================================== *)

Module ResultCard.

Module styles.
Definition container : Style :=
  [ ("marginTop", JStr "32px");
    ("padding", JStr "24px");
    ("backgroundColor", JStr "#f9fafb");
    ("borderRadius", JStr "12px");
    ("border", JStr "1px solid #e5e7eb") ].
Definition header : Style :=
  [ ("marginBottom", JStr "24px");
    ("paddingBottom", JStr "16px");
    ("borderBottom", JStr "2px solid #e5e7eb") ].
Definition title : Style :=
  [ ("margin", JNum "0");
    ("fontSize", JStr "20px");
    ("fontWeight", JStr "600");
    ("color", JStr "#1a1a1a") ].
Definition section : Style :=
  [ ("marginBottom", JStr "24px") ].
Definition sectionTitle : Style :=
  [ ("fontSize", JStr "16px");
    ("fontWeight", JStr "600");
    ("color", JStr "#1a1a1a");
    ("marginBottom", JStr "12px") ].
Definition list : Style :=
  [ ("margin", JNum "0");
    ("paddingLeft", JStr "24px") ].
Definition listItem : Style :=
  [ ("marginBottom", JStr "8px");
    ("color", JStr "#4b5563");
    ("fontSize", JStr "15px");
    ("lineHeight", JStr "1.6") ].
Definition skillSection : Style :=
  [ ("marginBottom", JStr "20px");
    ("padding", JStr "16px");
    ("backgroundColor", JStr "white");
    ("borderRadius", JStr "8px");
    ("border", JStr "1px solid #e5e7eb") ].
Definition skillName : Style :=
  [ ("fontSize", JStr "15px");
    ("fontWeight", JStr "600");
    ("color", JStr "#1a1a1a");
    ("marginTop", JNum "0");
    ("marginBottom", JStr "12px") ].
Definition courseList : Style :=
  [ ("display", JStr "flex");
    ("flexDirection", JStr "column");
    ("gap", JStr "8px");
    ("marginBottom", JStr "12px") ].
Definition courseLink : Style :=
  [ ("display", JStr "flex");
    ("alignItems", JStr "center");
    ("justifyContent", JStr "space-between");
    ("padding", JStr "12px");
    ("backgroundColor", JStr "#f9fafb");
    ("border", JStr "1px solid #e5e7eb");
    ("borderRadius", JStr "6px");
    ("textDecoration", JStr "none");
    ("transition", JStr "all 0.2s") ].
Definition courseInfo : Style :=
  [ ("display", JStr "flex");
    ("flexDirection", JStr "column");
    ("gap", JStr "4px");
    ("flex", JNum "1") ].
Definition courseTitle : Style :=
  [ ("fontWeight", JStr "500");
    ("color", JStr "#1a1a1a");
    ("fontSize", JStr "14px") ].
Definition courseMeta : Style :=
  [ ("fontSize", JStr "12px");
    ("color", JStr "#6b7280") ].
Definition arrow : Style :=
  [ ("fontSize", JStr "18px");
    ("color", JStr "#5b7cff");
    ("marginLeft", JStr "12px") ].
Definition codeSection : Style :=
  [ ("marginTop", JStr "16px");
    ("padding", JStr "12px");
    ("backgroundColor", JStr "#f9fafb");
    ("borderRadius", JStr "6px") ].
Definition codeTitle : Style :=
  [ ("fontSize", JStr "14px");
    ("fontWeight", JStr "600");
    ("color", JStr "#1a1a1a");
    ("marginTop", JNum "0");
    ("marginBottom", JStr "8px") ].
Definition codeBlock : Style :=
  [ ("backgroundColor", JStr "#1a1a1a");
    ("color", JStr "#f9fafb");
    ("padding", JStr "12px");
    ("borderRadius", JStr "4px");
    ("fontSize", JStr "13px");
    ("lineHeight", JStr "1.5");
    ("overflow", JStr "auto");
    ("marginBottom", JStr "8px");
    ("fontFamily", JStr "monospace") ].
Definition codeDescription : Style :=
  [ ("fontSize", JStr "13px");
    ("color", JStr "#6b7280");
    ("margin", JStr "0 0 12px 0") ].
Definition outputBlock : Style :=
  [ ("backgroundColor", JStr "#f3f4f6");
    ("color", JStr "#1a1a1a");
    ("padding", JStr "8px");
    ("borderRadius", JStr "4px");
    ("fontSize", JStr "12px");
    ("marginTop", JStr "8px");
    ("marginBottom", JStr "8px");
    ("fontFamily", JStr "monospace") ].
Definition validationBox : Style :=
  [ ("padding", JStr "12px");
    ("borderRadius", JStr "6px");
    ("border", JStr "1px solid");
    ("marginTop", JStr "8px") ].
Definition validationSuccess : Style :=
  [ ("backgroundColor", JStr "#f0fdf4");
    ("borderColor", JStr "#86efac");
    ("color", JStr "#166534") ].
Definition validationError : Style :=
  [ ("backgroundColor", JStr "#fef2f2");
    ("borderColor", JStr "#fecaca");
    ("color", JStr "#991b1b") ].
Definition validationHeader : Style :=
  [ ("display", JStr "flex");
    ("justifyContent", JStr "space-between");
    ("alignItems", JStr "center");
    ("marginBottom", JStr "8px");
    ("fontSize", JStr "13px") ].
Definition validationStatus : Style :=
  [ ("fontSize", JStr "14px");
    ("fontWeight", JStr "600") ].
Definition validationTime : Style :=
  [ ("fontSize", JStr "12px");
    ("color", JStr "#6b7280") ].
Definition validationDetails : Style :=
  [ ("margin", JNum "0");
    ("fontSize", JStr "13px");
    ("lineHeight", JStr "1.6") ].
End styles.

(** The [<li>] the skills callback returns. *)
Definition skillItem (skill : JsValue) (index : nat) : Completion Node :=
  mret (NElem "li" (Some index) styles.listItem [] [NValue skill]).

(** [{skillsToLearn && skillsToLearn.map(...)}] *)
Definition skillItems (skillsToLearn : JsValue) : Completion Node :=
  if truthy skillsToLearn
  then js_map "skillsToLearn" skillsToLearn skillItem
  else mret (NValue skillsToLearn).

(** [course.duration || "N/A"] and [course.level || "All Levels"] *)
Definition durationText (course : JsValue) : JsValue :=
  or_js (get course "duration") (JStr "N/A").
Definition levelText (course : JsValue) : JsValue :=
  or_js (get course "level") (JStr "All Levels").

(** The [<span style={styles.courseMeta}>] of one course. *)
Definition courseMeta (course : JsValue) : Node :=
  NElem "span" None styles.courseMeta []
    [ NValue (get course "platform"); NText " • ";
      NValue (durationText course); NText " •"; NValue (JStr " ");
      NValue (levelText course) ].

(** The [<a>] the courses callback returns; [course.url] is the first
    access and throws when the array element is null. *)
Definition courseLink (course : JsValue) (courseIndex : nat) : Completion Node :=
  url ← member course "url";
  mret (NElem "a" (Some courseIndex) styles.courseLink
          [ ("href", url); ("target", JStr "_blank");
            ("rel", JStr "noopener noreferrer") ]
          [ NElem "div" None styles.courseInfo []
              [ NElem "span" None styles.courseTitle [] [NValue (get course "title")];
                courseMeta course ];
            NElem "span" None styles.arrow [] [NText "→"] ]).

(** [{validation && (<div style={{...}}> ... </div>)}] inside a code
    example. *)
Definition snippetValidation (validation : JsValue) : Node :=
  if truthy validation then
    NElem "div" None
      (spread styles.validationBox
         (if strict_eq_str (get validation "status") "Success"
          then styles.validationSuccess else styles.validationError)) []
      [ NElem "div" None styles.validationHeader []
          [ NElem "strong" None [] []
              [NText "Validation: "; NValue (get validation "status")];
            NElem "span" None styles.validationTime []
              [NValue (get validation "execution_time"); NText "s"] ];
        (if truthy (get validation "output")
         then NElem "pre" None styles.outputBlock [] [NValue (get validation "output")]
         else NValue (get validation "output"));
        NElem "p" None styles.validationDetails [] [NValue (get validation "details")] ]
  else NValue validation.

(** [{skillData.code_snippet && (<div style={styles.codeSection}> ...)}] *)
Definition codeSection (code_snippet : JsValue) : Node :=
  if truthy code_snippet then
    NElem "div" None styles.codeSection []
      [ NElem "h6" None styles.codeTitle [] [NText "💻 Code Example"];
        NElem "pre" None styles.codeBlock []
          [NElem "code" None [] [] [NValue (get code_snippet "code")]];
        NElem "p" None styles.codeDescription []
          [NValue (get code_snippet "description")];
        snippetValidation (get code_snippet "validation") ]
  else NValue code_snippet.

(** [{skillData.courses && skillData.courses.map(...)}] *)
Definition courseLinks (courses : JsValue) : Completion Node :=
  if truthy courses
  then js_map "skillData.courses" courses courseLink
  else mret (NValue courses).

(** The [<div style={styles.skillSection}>] the outer callback returns;
    [skillData.skill] is the first access. *)
Definition skillSection (skillData : JsValue) (skillIndex : nat) : Completion Node :=
  skill ← member skillData "skill";
  links ← courseLinks (get skillData "courses");
  mret (NElem "div" (Some skillIndex) styles.skillSection []
          [ NElem "h5" None styles.skillName [] [NValue skill];
            NElem "div" None styles.courseList [] [links];
            codeSection (get skillData "code_snippet") ]).

(** [{skillsWithCourses && skillsWithCourses.map(...)}] *)
Definition skillSections (skillsWithCourses : JsValue) : Completion Node :=
  if truthy skillsWithCourses
  then js_map "skillsWithCourses" skillsWithCourses skillSection
  else mret (NValue skillsWithCourses).

(** [{codeValidationResult && (<div style={styles.section}> ...)}] *)
Definition overallValidation (codeValidationResult : JsValue) : Node :=
  if truthy codeValidationResult then
    NElem "div" None styles.section []
      [ NElem "h4" None styles.sectionTitle [] [NText "✅ Overall Validation Status"];
        NElem "div" None
          (spread styles.validationBox
             (if strict_eq_str (get codeValidationResult "status") "Success"
              then styles.validationSuccess else styles.validationError)) []
          [ NElem "div" None styles.validationHeader []
              [ NElem "strong" None [] [] [NValue (get codeValidationResult "skill")];
                NElem "span" None styles.validationStatus []
                  [NValue (get codeValidationResult "status")] ];
            NElem "p" None styles.validationDetails []
              [NValue (get codeValidationResult "details")] ] ]
  else NValue codeValidationResult.

(** [const ResultCard = ({ plan }) => ...] *)
Definition ResultCard (plan : JsValue) : Completion Node :=
  if negb (truthy plan) then mret (NValue JNull)
  else
    let title := get plan "title" in
    let skillsToLearn := get plan "skillsToLearn" in
    let skillsWithCourses := get plan "skillsWithCourses" in
    let codeValidationResult := get plan "codeValidationResult" in
    items ← skillItems skillsToLearn;
    sections ← skillSections skillsWithCourses;
    mret (NElem "div" None styles.container []
            [ NElem "div" None styles.header []
                [ NElem "h3" None styles.title []
                    [NValue (or_js title (JStr "Your Recommended Career Path"))] ];
              NElem "div" None styles.section []
                [ NElem "h4" None styles.sectionTitle [] [NText "🎯 Top 3 Skills to Learn"];
                  NElem "ol" None styles.list [] [items] ];
              NElem "div" None styles.section []
                [ NElem "h4" None styles.sectionTitle [] [NText "📚 Recommended Courses"];
                  sections ];
              overallValidation codeValidationResult ]).

End ResultCard.

(* ===================================================================== *)
(** ** ResultCardV1: the earlier variant of the result display            *)
(* ===================================================================== *)

Module ResultCardV1.

Module styles.
Definition container : Style :=
  [ ("marginTop", JStr "32px");
    ("padding", JStr "24px");
    ("backgroundColor", JStr "#f9fafb");
    ("borderRadius", JStr "12px");
    ("border", JStr "1px solid #e5e7eb") ].
Definition header : Style :=
  [ ("marginBottom", JStr "24px");
    ("paddingBottom", JStr "16px");
    ("borderBottom", JStr "2px solid #e5e7eb") ].
Definition title : Style :=
  [ ("margin", JNum "0");
    ("fontSize", JStr "20px");
    ("fontWeight", JStr "600");
    ("color", JStr "#1a1a1a") ].
Definition section : Style :=
  [ ("marginBottom", JStr "24px") ].
Definition sectionTitle : Style :=
  [ ("fontSize", JStr "16px");
    ("fontWeight", JStr "600");
    ("color", JStr "#1a1a1a");
    ("marginBottom", JStr "12px") ].
Definition list : Style :=
  [ ("margin", JNum "0");
    ("paddingLeft", JStr "24px") ].
Definition listItem : Style :=
  [ ("marginBottom", JStr "8px");
    ("color", JStr "#4b5563");
    ("fontSize", JStr "15px");
    ("lineHeight", JStr "1.6") ].
Definition courseList : Style :=
  [ ("display", JStr "flex");
    ("flexDirection", JStr "column");
    ("gap", JStr "8px") ].
Definition courseLink : Style :=
  [ ("display", JStr "flex");
    ("alignItems", JStr "center");
    ("justifyContent", JStr "space-between");
    ("padding", JStr "12px 16px");
    ("backgroundColor", JStr "white");
    ("border", JStr "1px solid #e5e7eb");
    ("borderRadius", JStr "8px");
    ("textDecoration", JStr "none");
    ("color", JStr "#5b7cff");
    ("fontSize", JStr "15px");
    ("transition", JStr "all 0.2s") ].
Definition courseName : Style :=
  [ ("fontWeight", JStr "500") ].
Definition arrow : Style :=
  [ ("fontSize", JStr "18px");
    ("transition", JStr "transform 0.2s") ].
Definition validationBox : Style :=
  [ ("padding", JStr "16px");
    ("borderRadius", JStr "8px");
    ("border", JStr "1px solid") ].
Definition validationSuccess : Style :=
  [ ("backgroundColor", JStr "#f0fdf4");
    ("borderColor", JStr "#86efac");
    ("color", JStr "#166534") ].
Definition validationError : Style :=
  [ ("backgroundColor", JStr "#fef2f2");
    ("borderColor", JStr "#fecaca");
    ("color", JStr "#991b1b") ].
Definition validationHeader : Style :=
  [ ("display", JStr "flex");
    ("justifyContent", JStr "space-between");
    ("alignItems", JStr "center");
    ("marginBottom", JStr "8px") ].
Definition validationStatus : Style :=
  [ ("fontSize", JStr "14px");
    ("fontWeight", JStr "600") ].
Definition validationDetails : Style :=
  [ ("margin", JNum "0");
    ("fontSize", JStr "14px");
    ("lineHeight", JStr "1.6") ].
End styles.

Definition skillItem (skill : JsValue) (index : nat) : Completion Node :=
  mret (NElem "li" (Some index) styles.listItem [] [NValue skill]).

Definition skillItems (skillsToLearn : JsValue) : Completion Node :=
  if truthy skillsToLearn
  then js_map "skillsToLearn" skillsToLearn skillItem
  else mret (NValue skillsToLearn).

(** The [<a>] per recommended course; [course.url] is the first access. *)
Definition courseLink (course : JsValue) (index : nat) : Completion Node :=
  url ← member course "url";
  mret (NElem "a" (Some index) styles.courseLink
          [ ("href", url); ("target", JStr "_blank");
            ("rel", JStr "noopener noreferrer") ]
          [ NElem "span" None styles.courseName [] [NValue (get course "skill")];
            NElem "span" None styles.arrow [] [NText "→"] ]).

(** [{recommendedCourses && recommendedCourses.map(...)}] *)
Definition courseLinks (recommendedCourses : JsValue) : Completion Node :=
  if truthy recommendedCourses
  then js_map "recommendedCourses" recommendedCourses courseLink
  else mret (NValue recommendedCourses).

Definition codeValidation (codeValidationResult : JsValue) : Node :=
  if truthy codeValidationResult then
    NElem "div" None styles.section []
      [ NElem "h4" None styles.sectionTitle [] [NText "✅ Code Snippet Validation"];
        NElem "div" None
          (spread styles.validationBox
             (if strict_eq_str (get codeValidationResult "status") "Success"
              then styles.validationSuccess else styles.validationError)) []
          [ NElem "div" None styles.validationHeader []
              [ NElem "strong" None [] [] [NValue (get codeValidationResult "skill")];
                NElem "span" None styles.validationStatus []
                  [NValue (get codeValidationResult "status")] ];
            NElem "p" None styles.validationDetails []
              [NValue (get codeValidationResult "details")] ] ]
  else NValue codeValidationResult.

Definition ResultCard (plan : JsValue) : Completion Node :=
  if negb (truthy plan) then mret (NValue JNull)
  else
    let title := get plan "title" in
    let skillsToLearn := get plan "skillsToLearn" in
    let recommendedCourses := get plan "recommendedCourses" in
    let codeValidationResult := get plan "codeValidationResult" in
    items ← skillItems skillsToLearn;
    links ← courseLinks recommendedCourses;
    mret (NElem "div" None styles.container []
            [ NElem "div" None styles.header []
                [ NElem "h3" None styles.title []
                    [NValue (or_js title (JStr "Your Recommended Career Path"))] ];
              NElem "div" None styles.section []
                [ NElem "h4" None styles.sectionTitle [] [NText "🎯 Top 3 Skills to Learn"];
                  NElem "ol" None styles.list [] [items] ];
              NElem "div" None styles.section []
                [ NElem "h4" None styles.sectionTitle [] [NText "📚 Recommended Courses"];
                  NElem "div" None styles.courseList [] [links] ];
              codeValidation codeValidationResult ]).

End ResultCardV1.

(* ===================================================================== *)
(** ** LoadingSpinner                                                     *)
(* ===================================================================== *)

Module LoadingSpinner.

Module styles.
Definition container : Style :=
  [ ("display", JStr "flex");
    ("flexDirection", JStr "column");
    ("alignItems", JStr "center");
    ("gap", JStr "16px");
    ("padding", JStr "24px") ].
Definition spinner : Style :=
  [ ("width", JStr "40px");
    ("height", JStr "40px");
    ("border", JStr "4px solid #e5e7eb");
    ("borderTop", JStr "4px solid #5b7cff");
    ("borderRadius", JStr "50%");
    ("animation", JStr "spin 1s linear infinite") ].
Definition text : Style :=
  [ ("color", JStr "#6b7280");
    ("fontSize", JStr "14px");
    ("margin", JNum "0") ].
End styles.

(** [const LoadingSpinner = () => ...]; the keyframes the module appends
    to the document are outside the element it returns. *)
Definition LoadingSpinner : Node :=
  NElem "div" None styles.container []
    [ NElem "div" None styles.spinner [] [];
      NElem "p" None styles.text []
        [NText "Generating your personalized career path..."] ].

End LoadingSpinner.

(* ===================================================================== *)
(** ** The browser side the client code runs against                      *)
(* ===================================================================== *)

Module Browser.

(** What [fetch(url, init)] is called with. [body] holds the value handed
    to [JSON.stringify]. *)
Record Request : Type := mkRequest {
  url : string;
  method : string;
  headers : list (string * string);
  body : JsValue;
}.

(** The two members of a [Response] the client reads: [ok], and what the
    promise of [json()] settles to (it rejects with a [SyntaxError] when
    the body is not JSON). *)
Record Response : Type := mkResponse {
  ok : bool;
  json : Completion JsValue;
}.

(** The network: what the promise of [fetch] settles to for a request
    (it rejects with a [TypeError] when no response arrives). *)
Definition Fetch : Type := Request → Completion Response.

(** The state of the form component, as its five [useState] cells. *)
Record State : Type := mkState {
  currentRole : string;
  targetRole : string;
  plan : JsValue;
  isLoading : bool;
  error : string;
}.

(** The page: the component state and the requests sent so far. *)
Record World : Type := mkWorld {
  comp : State;
  sent : list Request;
}.

(** Effectful code: may throw, may change the world. *)
Definition Eff (A : Type) : Type := World → Completion A * World.

#[global] Instance Eff_ret : MRet Eff := fun A a w => (Normal a, w).
#[global] Instance Eff_bind : MBind Eff := fun A B f m w =>
  match m w with
  | (Normal a, w') => f a w'
  | (Throw e, w') => (Throw e, w')
  end.

Definition throw {A} (e : JsError) : Eff A := fun w => (Throw e, w).

(** [try { body } catch (err) { handler(err) } finally { fin }] *)
Definition try_catch_finally (body : Eff unit) (handler : JsError → Eff unit)
    (fin : Eff unit) : Eff unit := fun w =>
  let '(r, w1) :=
    match body w with
    | (Normal a, w1) => (Normal a, w1)
    | (Throw e, w1) => handler e w1
    end in
  match fin w1 with
  | (Normal _, w2) => (r, w2)
  | (Throw e, w2) => (Throw e, w2)
  end.

(** [await fetch(...)]: the request leaves the page. *)
Definition do_fetch (net : Fetch) (req : Request) : Eff Response := fun w =>
  (net req, mkWorld (comp w) (sent w ++ [req])).

(** [await p] for an already settled promise. *)
Definition await {A} (p : Completion A) : Eff A := fun w => (p, w).

End Browser.
Export Browser.

(* ===================================================================== *)
(** ** frontend/src/services/api.js                                       *)
(* ===================================================================== *)

Module Api.

Definition generic_message : string :=
  "An unexpected error occurred while generating the path.".

(** [response.json().catch(() => null)] *)
Definition json_or_null (r : Response) : JsValue :=
  match json r with
  | Normal v => v
  | Throw _ => JNull
  end.

(** The arguments of the [fetch] call. *)
Definition request (currentRole targetRole : string) : Request :=
  mkRequest "/api/generate-career-path" "POST"
    [("Content-Type", "application/json")]
    (obj [("currentRole", JStr currentRole); ("targetRole", JStr targetRole)]).

(** [export const generateCareerPath = async (currentRole, targetRole) => ...] *)
Definition generateCareerPath (net : Fetch) (currentRole targetRole : string)
  : Eff JsValue :=
  response ← do_fetch net (request currentRole targetRole);
  if negb (ok response) then
    let errorData := json_or_null response in
    throw (thrown_Error
      (or_js (optget (optget errorData "error") "message") (JStr generic_message)))
  else
    await (json response).

End Api.

(* ===================================================================== *)
(** ** CareerPathGenerator: the form component                            *)
(* ===================================================================== *)

Module CareerPathGenerator.

(** [useState("")], [useState(null)], [useState(false)] *)
Definition initial : State := mkState "" "" JNull false "".

Definition setCurrentRole (v : string) : Eff unit := fun w =>
  let s := comp w in
  (Normal (), mkWorld (mkState v (targetRole s) (plan s) (isLoading s) (error s)) (sent w)).
Definition setTargetRole (v : string) : Eff unit := fun w =>
  let s := comp w in
  (Normal (), mkWorld (mkState (currentRole s) v (plan s) (isLoading s) (error s)) (sent w)).
Definition setPlan (v : JsValue) : Eff unit := fun w =>
  let s := comp w in
  (Normal (), mkWorld (mkState (currentRole s) (targetRole s) v (isLoading s) (error s)) (sent w)).
Definition setIsLoading (v : bool) : Eff unit := fun w =>
  let s := comp w in
  (Normal (), mkWorld (mkState (currentRole s) (targetRole s) (plan s) v (error s)) (sent w)).
Definition setError (v : string) : Eff unit := fun w =>
  let s := comp w in
  (Normal (), mkWorld (mkState (currentRole s) (targetRole s) (plan s) (isLoading s) v) (sent w)).

(** [const handleSubmit = async (e) => ...]; the roles are the ones of
    the render the handler was created in, and [e.preventDefault()]
    leaves the component alone. *)
Definition handleSubmit (net : Fetch) : Eff unit := fun w =>
  let currentRole := currentRole (comp w) in
  let targetRole := targetRole (comp w) in
  (setIsLoading true;;
   setError "";;
   setPlan JNull;;
   try_catch_finally
     (result ← Api.generateCareerPath net currentRole targetRole;
      setPlan result)
     (fun err => setError (message err))
     (setIsLoading false)) w.

(** [const isButtonDisabled = !currentRole || !targetRole || isLoading] *)
Definition isButtonDisabled (s : State) : bool :=
  negb (truthy (JStr (currentRole s))) || negb (truthy (JStr (targetRole s)))
  || isLoading s.

(** [<form onSubmit={handleSubmit}>] with its
    [<button type="submit" disabled={isButtonDisabled}>]: the browser
    raises no submit event while the form's submit button is disabled. *)
Definition submit (net : Fetch) : Eff unit := fun w =>
  if isButtonDisabled (comp w) then (Normal (), w) else handleSubmit net w.

(** The three conditional blocks under the form:
    [{isLoading && ...}], [{error && ...}], [{plan && ...}]. *)
Definition loadingBlock (s : State) : Node :=
  if isLoading s
  then NElem "div" None [] [("className", JStr "loading-container")]
         [LoadingSpinner.LoadingSpinner]
  else NValue (JBool false).
Definition errorBlock (s : State) : Node :=
  if truthy (JStr (error s))
  then NElem "div" None [] [("className", JStr "error-container")]
         [ErrorAlert.ErrorAlert (JStr (error s))]
  else NValue (JStr (error s)).
Definition resultBlock (s : State) : Completion Node :=
  if truthy (plan s)
  then card ← ResultCard.ResultCard (plan s);
       shown ← draw card;
       mret (NElem "div" None [] [("className", JStr "results-container")] [shown])
  else mret (NValue (plan s)).

End CareerPathGenerator.

(* ===================================================================== *)
(** ** Vocabulary of the specification                                    *)
(* ===================================================================== *)

Module SpecTerms.

(** White space as [String.prototype.trim] removes it, for the one-byte
    characters: tab, line feed, vertical tab, form feed, carriage return
    and space. *)
Definition is_space (c : Ascii.ascii) : bool :=
  match Ascii.nat_of_ascii c with
  | 9 | 10 | 11 | 12 | 13 | 32 => true
  | _ => false
  end.

(** The white space [trim] removes that takes two or three bytes in
    UTF-8: no-break space; ogham space mark, the spaces U+2000 to U+200A,
    line and paragraph separator, narrow no-break space, medium
    mathematical space, ideographic space and the byte order mark. *)
Definition is_space2 (c1 c2 : Ascii.ascii) : bool :=
  match Ascii.nat_of_ascii c1, Ascii.nat_of_ascii c2 with
  | 194, 160 => true
  | _, _ => false
  end.

Definition is_space3 (c1 c2 c3 : Ascii.ascii) : bool :=
  match Ascii.nat_of_ascii c1, Ascii.nat_of_ascii c2, Ascii.nat_of_ascii c3 with
  | 225, 154, 128 => true
  | 226, 128, n => (128 <=? n)%nat && (n <=? 138)%nat
                   || (n =? 168)%nat || (n =? 169)%nat || (n =? 175)%nat
  | 226, 129, 159 => true
  | 227, 128, 128 => true
  | 239, 187, 191 => true
  | _, _, _ => false
  end.

(** The specification's "empty after trimming": nothing but white space. *)
Fixpoint blank (s : string) : bool :=
  match s with
  | EmptyString => true
  | String c r =>
      if is_space c then blank r
      else
        match r with
        | EmptyString => false
        | String c2 r2 =>
            if is_space2 c c2 then blank r2
            else
              match r2 with
              | EmptyString => false
              | String c3 r3 => is_space3 c c2 c3 && blank r3
              end
        end
  end.

(** The number of characters of a string held as UTF-8: the bytes that
    do not continue a character. *)
Fixpoint char_length (s : string) : nat :=
  match s with
  | EmptyString => 0
  | String c r =>
      (if (128 <=? Ascii.nat_of_ascii c)%nat && (Ascii.nat_of_ascii c <? 192)%nat
       then 0 else 1) + char_length r
  end.

(** "[plan] is set" and "[error] is set", as the component tests them in
    [{plan && ...}] and [{error && ...}]. *)
Definition plan_set (s : State) : bool := truthy (plan s).
Definition error_set (s : State) : bool := truthy (JStr (error s)).

(** Two values agree on the listed members. *)
Definition agree_on (ks : list string) (p p' : JsValue) : Prop :=
  Forall (fun k => get p k = get p' k) ks.

(** The style of the validation box inside a rendered validation
    section: the section holds its heading, then the box. *)
Definition box_style (n : Node) : option Style :=
  match n with
  | NElem _ _ _ _ [_; NElem _ _ st _ _] => Some st
  | _ => None
  end.

(** The last child of an element. *)
Definition last_child (n : Node) : option Node :=
  match n with
  | NElem _ _ _ _ children => last children
  | _ => None
  end.

(** The members of the final response, and the ones of its earlier
    shape. *)
Definition career_path_fields : list string :=
  ["title"; "skillsToLearn"; "skillsWithCourses"; "codeValidationResult"].
Definition v1_fields : list string :=
  ["title"; "skillsToLearn"; "recommendedCourses"; "codeValidationResult"].

End SpecTerms.
Export SpecTerms.

(* ===================================================================== *)
(** ** The verdict of the sandbox                                         *)
(* ===================================================================== *)

Module Verdict.

(** Modelled from the spec: [status: Success|Failure] of
    [ValidationResult]; the same two values are the
    [CodeValidation.status] union of docs/architecture.md. *)
Inductive ValidationStatus : Type := Success | Failure.

(** Modelled from the spec: the status as the response carries it. *)
Definition status_text (s : ValidationStatus) : string :=
  match s with
  | Success => "Success"
  | Failure => "Failure"
  end.

End Verdict.
Export Verdict.

(* ===================================================================== *)
(** ** The workflow orchestrator                                          *)
(* ===================================================================== *)

Module Orchestrator.

(** Modelled from the spec: the data model of section 3. The Python
    orchestrator is not among the sources; every definition of this
    module follows the specification's sections 3 to 7. [CareerQuery]. *)
Record CareerQuery : Type := mkQuery {
  currentRole : string;
  targetRole : string;
}.

(** Modelled from the spec: [KnowledgeSnippet] of section 3. *)
Record KnowledgeSnippet : Type := mkSnippet {
  ks_title : string;
  ks_description : string;
  ks_category : string;
}.

(** Modelled from the spec: [SkillGap], the ordered skill names. *)
Definition SkillGap : Type := list string.

(** Modelled from the spec: [CourseResult]; duration and level are
    optional. *)
Record CourseResult : Type := mkCourse {
  course_skill : string;
  course_title : string;
  course_url : string;
  course_platform : string;
  course_duration : option string;
  course_level : option string;
}.

(** Modelled from the spec: [CodeSnippet] of section 3. *)
Record CodeSnippet : Type := mkCode {
  snippet_skill : string;
  snippet_language : string;
  snippet_code : string;
  snippet_description : string;
}.

(** Modelled from the spec: [ValidationResult] of section 3. *)
Record ValidationResult : Type := mkValidation {
  status : ValidationStatus;
  output : string;
  error : option string;
  executionTimeSeconds : Qc;
}.

(** Modelled from the spec: the error taxonomy of section 7. *)
Inductive Fault : Type :=
| RetrievalError | AnalysisFault | ToolError | UnknownTool
| GenerationError | SafetyRejection | SandboxError | TraceError.

(** Modelled from the spec: the six stages of section 4.1. *)
Inductive Stage : Type :=
| StRetrieve | StAnalyze | StFetchCourses | StGenerateCode | StValidate | StAssemble.

(** Modelled from the spec: [TraceSpan] of section 3. *)
Record TraceSpan : Type := mkSpan {
  stageName : Stage;
  startTime : nat;
  durationMs : nat;
  inputSummary : string;
  outputSummary : string;
  errorKind : option Fault;
}.

(** Modelled from the spec: one entry of [skillsWithCourses]. *)
Record SkillCourses : Type := mkSkillCourses {
  skill : string;
  courses : list CourseResult;
}.

(** Modelled from the spec: [CareerPath], the final response. *)
Record CareerPath : Type := mkPath {
  title : string;
  skillsToLearn : list string;
  skillsWithCourses : list SkillCourses;
  codeValidationResult : ValidationResult;
}.

(** Modelled from the spec: the error envelope of section 6. *)
Inductive ErrorKind : Type := ValidationError | AnalysisError | InternalError.

(** Modelled from the spec: the envelope [{kind, message}]. *)
Record ErrorEnvelope : Type := mkEnvelope {
  kind : ErrorKind;
  message : string;
}.

(** Modelled from the spec: the pair (value, error) a contract returns. *)
Inductive Result (E A : Type) : Type :=
| Ok (a : A)
| Err (e : E).
Arguments Ok {E A} a.
Arguments Err {E A} e.

(** Modelled from the spec: the tool call of sections 4.3 and 4.4, and the
    tagged reply of section 9. *)
Record ToolCallRequest : Type := mkToolCall {
  toolName : string;
  args : gmap string string;
}.

(** Modelled from the spec: [FinalAnswer | ToolCallRequested] of section 9. *)
Inductive ReasoningReply : Type :=
| FinalAnswer (gap : SkillGap)
| ToolCallRequested (req : ToolCallRequest).

(** Modelled from the spec: the input of Analyze, stage 2. *)
Record AnalyzeInput : Type := mkAnalyzeInput {
  in_currentRole : string;
  in_targetRole : string;
  retrievedSnippets : list KnowledgeSnippet;
}.

(** Modelled from the spec: the collaborators of sections 4.2 to 4.5, as
    deterministic functions of their arguments. [Resume] is the same
    reasoning turn continued with the tool's result. The sandbox returns
    status, output and error; the execution time it measures belongs to
    the run. *)
Record Collaborators : Type := mkCollaborators {
  Retrieve : string → nat → Qc → Result Fault (list KnowledgeSnippet);
  Analyze : AnalyzeInput → Result Fault ReasoningReply;
  Resume : AnalyzeInput → ToolCallRequest → list CourseResult
           → Result Fault ReasoningReply;
  Invoke : string → gmap string string → Result Fault (list CourseResult);
  GenerateSnippet : string → string → bool → Result Fault CodeSnippet;
  Validate : string → string → nat
             → Result Fault (ValidationStatus * string * option string);
}.

(** Modelled from the spec: the configuration surface of section 6. *)
Record Config : Type := mkConfig {
  maxRoleLength : nat;
  retrievalLimit : nat;
  minScore : Qc;
  language : string;
  denyList : list string;
  fallbackSnippet : string → string → CodeSnippet;
  sandboxTimeoutSeconds : nat;
}.

(** Modelled from the spec: what differs from one run to the next (section 8): the trace id the recorder
    hands out (none when it is unavailable), the clock readings of each
    stage, and the time the sandbox measures. *)
Record Run : Type := mkRun {
  startTrace : option nat;
  startOf : Stage → nat;
  durationOf : Stage → nat;
  measuredSeconds : Qc;
}.

(** Modelled from the spec: what a request leaves behind, the response
    and the spans recorded under its trace id. *)
Record Outcome : Type := mkOutcome {
  response : Result ErrorEnvelope CareerPath;
  traceId : option nat;
  spans : list TraceSpan;
}.

(** Modelled from the spec: the one tool, course search; its name and its
    argument are the ones of the product requirements
    ([search_learning_content(skill: str)]). *)
Definition course_search : string := "search_learning_content".

(** Modelled from the spec: the arguments of a course search. *)
Definition search_args (s : string) : gmap string string := {[ "skill" := s ]}.

(** Modelled from the spec: section 3, CareerQuery: both roles non-empty
    after trimming; section 4.1: the length cap. *)
Definition valid (cfg : Config) (q : CareerQuery) : bool :=
  negb (blank (currentRole q)) && negb (blank (targetRole q))
  && bool_decide (char_length (currentRole q) ≤ maxRoleLength cfg)%nat
  && bool_decide (char_length (targetRole q) ≤ maxRoleLength cfg)%nat.

(** Modelled from the spec: the span of a stage, with the run's clock. *)
Definition span (r : Run) (st : Stage) (i o : string) (e : option Fault) : TraceSpan :=
  mkSpan st (startOf r st) (durationOf r st) i o e.

(** Modelled from the spec: stage 1; failure and an empty result both continue with an empty
    context and record the error. *)
Definition retrieveStage (cfg : Config) (c : Collaborators) (q : CareerQuery)
  : list KnowledgeSnippet * option Fault :=
  match Retrieve c (targetRole q) (retrievalLimit cfg) (minScore cfg) with
  | Ok [] => ([], Some RetrievalError)
  | Ok ks => (ks, None)
  | Err _ => ([], Some RetrievalError)
  end.

(** Modelled from the spec: stage 2, the conversation, with at most one
    tool round. The second
    component is the course list the round already fetched, with the
    skill it was fetched for. A failed tool call inside the round feeds an
    empty result back. *)
Definition converse (c : Collaborators) (input : AnalyzeInput)
  : Result ErrorKind (SkillGap * option (string * list CourseResult)) :=
  match Analyze c input with
  | Err _ => Err AnalysisError
  | Ok (FinalAnswer gap) => Ok (gap, None)
  | Ok (ToolCallRequested req) =>
      if negb (String.eqb (toolName req) course_search) then Err InternalError
      else
        let fetched := Invoke c (toolName req) (args req) in
        let fed := match fetched with Ok cs => cs | Err _ => [] end in
        match Resume c input req fed with
        | Ok (FinalAnswer gap) =>
            Ok (gap,
                match fetched, args req !! "skill" with
                | Ok cs, Some s => Some (s, cs)
                | _, _ => None
                end)
        | Ok (ToolCallRequested _) => Err AnalysisError
        | Err _ => Err AnalysisError
        end
  end.

(** Modelled from the spec: stage 2; the gap keeps at most three entries
    (section 3), and an answer that names no skill is malformed output:
    there is no plan without skills identified. *)
Definition analyzeStage (c : Collaborators) (input : AnalyzeInput)
  : Result ErrorKind (SkillGap * option (string * list CourseResult)) :=
  match converse c input with
  | Err k => Err k
  | Ok (gap, sat) =>
      match take 3 gap with
      | [] => Err AnalysisError
      | gap3 => Ok (gap3, sat)
      end
  end.

(** Modelled from the spec: identical strings are dropped before course
    search (section 3); the first occurrence keeps its place. *)
Fixpoint dedupe_from (seen : list string) (l : list string) : list string :=
  match l with
  | [] => []
  | x :: r =>
      if bool_decide (x ∈ seen) then dedupe_from seen r
      else x :: dedupe_from (x :: seen) r
  end.
(** Modelled from the spec: the distinct skills of a gap. *)
Definition dedupe (l : list string) : list string := dedupe_from [] l.

(** Modelled from the spec: the courses the Analyze round already
    fetched for the skill, if any (stage 3). *)
Definition already (sat : option (string * list CourseResult)) (s : string)
  : option (list CourseResult) :=
  match sat with
  | Some (s', cs) => if String.eqb s' s then Some cs else None
  | None => None
  end.

(** Modelled from the spec: stage 3, one result slot; the skill's own
    call decides it, and a failed call gives the empty list. *)
Definition courseSlot (c : Collaborators) (sat : option (string * list CourseResult))
    (s : string) : SkillCourses * option Fault :=
  match already sat s with
  | Some cs => (mkSkillCourses s cs, None)
  | None =>
      match Invoke c course_search (search_args s) with
      | Ok cs => (mkSkillCourses s cs, None)
      | Err _ => (mkSkillCourses s [], Some ToolError)
      end
  end.

(** Modelled from the spec: stage 3, the fan-out, joined positionally by
    skill index (section 5). *)
Definition fetchStage (c : Collaborators) (sat : option (string * list CourseResult))
    (gap : SkillGap) : list SkillCourses * option Fault :=
  let slots := courseSlot c sat <$> dedupe gap in
  (fst <$> slots,
   if bool_decide (Exists (fun sl => sl.2 ≠ None) slots) then Some ToolError else None).

(** Modelled from the spec: a textual pattern occurs in the code. *)
Fixpoint contains (pat s : string) : bool :=
  String.prefix pat s ||
  match s with
  | EmptyString => false
  | String _ r => contains pat r
  end.

(** Modelled from the spec: the deny-list safety filter of section 4.3. *)
Definition safe (cfg : Config) (sn : CodeSnippet) : bool :=
  forallb (fun pat => negb (contains pat (snippet_code sn))) (denyList cfg).

(** Modelled from the spec: one [GenerateSnippet] request, filtered. *)
Definition generateOnce (cfg : Config) (c : Collaborators) (s : string) (strict : bool)
  : Result Fault CodeSnippet :=
  match GenerateSnippet c s (language cfg) strict with
  | Ok sn => if safe cfg sn then Ok sn else Err SafetyRejection
  | Err _ => Err GenerationError
  end.

(** Modelled from the spec: stage 4; one retry after a safety rejection,
    then the fallback. *)
Definition generateStage (cfg : Config) (c : Collaborators) (top : string)
  : CodeSnippet * option Fault :=
  match generateOnce cfg c top false with
  | Ok sn => (sn, None)
  | Err SafetyRejection =>
      match generateOnce cfg c top true with
      | Ok sn => (sn, Some SafetyRejection)
      | Err _ => (fallbackSnippet cfg top (language cfg), Some SafetyRejection)
      end
  | Err f => (fallbackSnippet cfg top (language cfg), Some f)
  end.

(** Modelled from the spec: stage 5; validation never propagates an
    error. *)
Definition validateStage (cfg : Config) (c : Collaborators) (r : Run) (sn : CodeSnippet)
  : ValidationResult * option Fault :=
  match Validate c (snippet_code sn) (snippet_language sn) (sandboxTimeoutSeconds cfg) with
  | Ok (st, out, err) => (mkValidation st out err (measuredSeconds r), None)
  | Err _ => (mkValidation Failure "" (Some "validation unavailable") 0%Qc,
              Some SandboxError)
  end.

(** Modelled from the spec: the title of the plan; the specification
    leaves its wording open, this is the wording of the README's example
    response. *)
Definition path_title (q : CareerQuery) : string :=
  "Your Path from " +:+ currentRole q +:+ " to " +:+ targetRole q.

(** Modelled from the spec: a recorder that did not start records
    nothing and blocks nothing (section 4.6). *)
Definition recorded (r : Run) (l : list TraceSpan) : list TraceSpan :=
  if startTrace r is Some _ then l else [].

(** Modelled from the spec: [GenerateCareerPath] of section 4.1, the six
    stages in order, each with its failure policy and its one span. *)
Definition GenerateCareerPath (cfg : Config) (c : Collaborators) (r : Run)
    (q : CareerQuery) : Outcome :=
  if negb (valid cfg q) then
    mkOutcome (Err (mkEnvelope ValidationError "currentRole and targetRole are required"))
              None []
  else
    let '(snippets, e1) := retrieveStage cfg c q in
    let s1 := span r StRetrieve (targetRole q) "" e1 in
    match analyzeStage c (mkAnalyzeInput (currentRole q) (targetRole q) snippets) with
    | Err k =>
        mkOutcome (Err (mkEnvelope k "skill analysis failed")) (startTrace r)
          (recorded r [s1; span r StAnalyze (targetRole q) ""
                             (Some (if k is InternalError then UnknownTool
                                    else AnalysisFault))])
    | Ok (gap, sat) =>
        let s2 := span r StAnalyze (targetRole q) (join "," gap) None in
        let '(withCourses, e3) := fetchStage c sat gap in
        let s3 := span r StFetchCourses (join "," gap) "" e3 in
        let top := default "" (head gap) in
        let '(sn, e4) := generateStage cfg c top in
        let s4 := span r StGenerateCode top (snippet_description sn) e4 in
        let '(vr, e5) := validateStage cfg c r sn in
        let s5 := span r StValidate top (status_text (status vr)) e5 in
        let s6 := span r StAssemble "" "" None in
        mkOutcome (Ok (mkPath (path_title q) gap withCourses vr)) (startTrace r)
          (recorded r [s1; s2; s3; s4; s5; s6])
    end.


(** Modelled from the spec: what the Analyze round of the query already
    fetched. *)
Definition round_result (cfg : Config) (c : Collaborators) (q : CareerQuery)
  : option (string * list CourseResult) :=
  match converse c (mkAnalyzeInput (currentRole q) (targetRole q) (retrieveStage cfg c q).1) with
  | Ok (_, sat) => sat
  | Err _ => None
  end.

(** Modelled from the spec: the fields a comparison of two runs looks at
    (section 8, idempotence). *)
Definition stable (o : Outcome)
  : Result ErrorKind (list string * ValidationStatus) :=
  match response o with
  | Ok p => Ok (skillsToLearn p, status (codeValidationResult p))
  | Err e => Err (kind e)
  end.

End Orchestrator.

(* ===================================================================== *)
(** ** Concrete servers and pages used in the examples                    *)
(* ===================================================================== *)

Module Fixtures.

(** A server answering 200 with the JSON body [v]. *)
Definition net_ok (v : JsValue) : Fetch :=
  fun _ => Normal (mkResponse true (Normal v)).

(** A server answering with an error status and the JSON body [v]. *)
Definition net_fail (v : JsValue) : Fetch :=
  fun _ => Normal (mkResponse false (Normal v)).

(** No server: [fetch] rejects. *)
Definition net_down : Fetch :=
  fun _ => Throw (TypeError "Failed to fetch").

Definition page (currentRole targetRole : string) : World :=
  mkWorld (mkState currentRole targetRole JNull false "") [].

(** A response in the shape the current [ResultCard] reads, with the
    values of the README's example. *)
Definition sample_plan : JsValue :=
  obj [ ("title", JStr "Your Path from Frontend Developer to Machine Learning Engineer");
        ("skillsToLearn", JArr [JStr "Python"; JStr "ML Fundamentals"; JStr "Data Structures"]);
        ("skillsWithCourses",
         JArr [ obj [ ("skill", JStr "Python");
                      ("courses", JArr [ obj [ ("title", JStr "Python Basics");
                                               ("url", JStr "https://example.com/course");
                                               ("platform", JStr "Example") ] ]) ] ]);
        ("codeValidationResult",
         obj [ ("skill", JStr "Python"); ("status", JStr "Success");
               ("details", JStr "Code executed successfully") ]) ].

(** The error envelope of the specification, as a response body, and the
    same envelope under an [error] member. *)
Definition envelope : JsValue :=
  obj [ ("kind", JStr "ValidationError");
        ("message", JStr "currentRole must not be empty") ].
Definition wrapped_envelope : JsValue := obj [("error", envelope)].

End Fixtures.
Export Fixtures.

Module Mocks.

Import Orchestrator.

(** The mocked collaborators of the specification's end-to-end
    scenario: a fixed gap of three skills, two courses per skill, and a
    sandbox verdict of Success. *)

Definition demo_cfg : Config :=
  mkConfig 200 5 (Q2Qc (7 # 10)) "python"
    ["os.system"; "subprocess."; "eval("; "open("; "import requests"]
    (fun s l => mkCode s l "print('hello')" "Fallback example")
    30.

Definition demo_courses (s : string) : list CourseResult :=
  [ mkCourse s "Introduction" "https://example.com/intro" "Example" None None;
    mkCourse s "In practice" "https://example.com/practice" "Example"
      (Some "4 weeks") (Some "Beginner") ].

Definition demo : Collaborators :=
  mkCollaborators
    (fun _ _ _ => Ok [mkSnippet "Machine Learning Engineer" "Builds models" "role"])
    (fun _ => Ok (FinalAnswer ["Python"; "ML Fundamentals"; "Data Structures"]))
    (fun _ _ _ => Err AnalysisFault)
    (fun _ a => match a !! "skill" with
                | Some s => Ok (demo_courses s)
                | None => Err ToolError
                end)
    (fun s l _ => Ok (mkCode s l "print(sum([1, 2, 3]))" "Sums a list"))
    (fun _ _ _ => Ok (Success, "6", None)).

(** The same, with the course search failing for one skill. *)
Definition demo_one_down : Collaborators :=
  mkCollaborators (Retrieve demo) (Analyze demo) (Resume demo)
    (fun t a => if bool_decide (a !! "skill" = Some "ML Fundamentals")
                then Err ToolError else Invoke demo t a)
    (GenerateSnippet demo) (Validate demo).


Definition demo_query : CareerQuery :=
  mkQuery "Frontend Developer" "Machine Learning Engineer".

Definition demo_run : Run := mkRun (Some 1) (fun _ => 0) (fun _ => 5) (Q2Qc (1 # 4)).
Definition other_run : Run := mkRun None (fun _ => 70) (fun _ => 9) (Q2Qc (3 # 2)).

End Mocks.
Export Mocks.


(* ===================================================================== *)
(** ** Shapes of values and of rendered elements                          *)
(* ===================================================================== *)

Module Shapes.

(** The values [v && v.map(...)] does not throw on: an array, or anything
    falsy. *)
Definition listable (v : JsValue) : bool :=
  match v with
  | JArr _ => true
  | _ => negb (truthy v)
  end.

(** The elements a [.map] over [v] visits. *)
Definition entries (v : JsValue) : list JsValue :=
  match v with
  | JArr l => l
  | _ => []
  end.

(** A course entry whose members can be read. *)
Definition course_ok (course : JsValue) : bool := negb (nullish course).

(** An entry of [skillsWithCourses] the card can render: its members can
    be read, and its courses are listable with readable entries. *)
Definition skillData_ok (skillData : JsValue) : bool :=
  negb (nullish skillData) && listable (get skillData "courses")
  && forallb course_ok (entries (get skillData "courses")).

(** The plans the current card renders. *)
Definition renderable (plan : JsValue) : bool :=
  negb (truthy plan) ||
  (listable (get plan "skillsToLearn") && listable (get plan "skillsWithCourses")
   && forallb skillData_ok (entries (get plan "skillsWithCourses"))).

(** The plans the earlier card renders. *)
Definition renderable_v1 (plan : JsValue) : bool :=
  negb (truthy plan) ||
  (listable (get plan "skillsToLearn") && listable (get plan "recommendedCourses")
   && forallb course_ok (entries (get plan "recommendedCourses"))).

Definition is_TypeError (e : JsError) : bool :=
  match e with
  | TypeError _ => true
  | _ => false
  end.

(** A message member whose text [String] passes on or names: a string, a
    boolean, an object, or nothing at all. *)
Definition plain_message (m : JsValue) : bool :=
  match m with
  | JArr _ | JNum _ => false
  | _ => true
  end.

Definition style_of (n : Node) : Style :=
  match n with
  | NElem _ _ style _ _ => style
  | _ => []
  end.
Definition attrs_of (n : Node) : list (string * JsValue) :=
  match n with
  | NElem _ _ _ attrs _ => attrs
  | _ => []
  end.
Definition children_of (n : Node) : list Node :=
  match n with
  | NElem _ _ _ _ children => children
  | _ => []
  end.

End Shapes.
Export Shapes.

(* ===================================================================== *)
(** ** The form over time: typing, submitting, answers arriving           *)
(* ===================================================================== *)

Module FormSession.

Import CareerPathGenerator.

(** The submit button of the form:
    [<button type="submit" className="submit-button" disabled={isButtonDisabled}>]
    with its label and its arrow. *)
Definition submitButton (s : State) : Node :=
  NElem "button" None []
    [ ("type", JStr "submit"); ("className", JStr "submit-button");
      ("disabled", JBool (isButtonDisabled s)) ]
    [ NValue (JStr (if isLoading s then "Generating..." else "Generate Path"));
      (if negb (isLoading s)
       then NElem "span" None [] [("className", JStr "arrow-icon")] [NText "→"]
       else NValue (JBool false)) ].

(** [generateCareerPath] from the point where [await fetch(...)] has its
    answer. *)
Definition after_fetch (answer : Completion Response) : Completion JsValue :=
  response ← answer;
  if negb (ok response) then
    let errorData := Api.json_or_null response in
    Throw (thrown_Error
      (or_js (optget (optget errorData "error") "message")
             (JStr Api.generic_message)))
  else
    json response.

(** [fetch(...)] is called: the request leaves the page, its answer is
    awaited. *)
Definition call_fetch (req : Request) : Eff Request := fun w =>
  (Normal req, mkWorld (comp w) (sent w ++ [req])).

(** [handleSubmit] up to the point where it waits: the three setters run
    and [generateCareerPath] calls [fetch], so the request has left. *)
Definition handleSubmit_start : Eff Request := fun w =>
  let currentRole := currentRole (comp w) in
  let targetRole := targetRole (comp w) in
  (setIsLoading true;;
   setError "";;
   setPlan JNull;;
   call_fetch (Api.request currentRole targetRole)) w.

(** [handleSubmit] from the point where the answer is there: the rest of
    the [try] block, the [catch] and the [finally]. *)
Definition handleSubmit_resume (answer : Completion Response) : Eff unit :=
  try_catch_finally
    (result ← await (after_fetch answer);
     setPlan result)
    (fun err => setError (message err))
    (setIsLoading false).

(** The page between events: the component, the requests sent, and the
    requests whose answer is still awaited, oldest first. *)
Record Session : Type := mkSession {
  world : World;
  inflight : list Request;
}.

(** What happens to the page: a key stroke in one of the two inputs
    ([onChange]), a submit of the form, the answer to the oldest awaited
    request. *)
Inductive Event : Type :=
| TypeCurrent (value : string)
| TypeTarget (value : string)
| Submit
| Arrive (answer : Completion Response).

Definition step (ev : Event) (p : Session) : Session :=
  match ev with
  | TypeCurrent v => mkSession (setCurrentRole v (world p)).2 (inflight p)
  | TypeTarget v => mkSession (setTargetRole v (world p)).2 (inflight p)
  | Submit =>
      if isButtonDisabled (comp (world p)) then p
      else
        match handleSubmit_start (world p) with
        | (Normal req, w') => mkSession w' (inflight p ++ [req])
        | (Throw _, w') => mkSession w' (inflight p)
        end
  | Arrive answer =>
      match inflight p with
      | [] => p
      | _ :: rest => mkSession (handleSubmit_resume answer (world p)).2 rest
      end
  end.

Definition run (evs : list Event) (p : Session) : Session :=
  foldl (fun p ev => step ev p) p evs.

(** The page as it is first rendered. *)
Definition fresh : Session := mkSession (mkWorld initial []) [].

(** What holds of the page between events: at most one request is
    awaited, and [isLoading] says whether one is; while one is awaited
    neither a plan nor an error is there, and never are both; the awaited
    request is the last one sent; every request sent carries two roles
    that are not empty. *)
Definition settled_or_waiting (p : Session) : Prop :=
  (length (inflight p) ≤ 1)%nat ∧
  (isLoading (comp (world p)) = true ↔ inflight p ≠ []) ∧
  (inflight p ≠ [] → plan (comp (world p)) = JNull ∧ error (comp (world p)) = "") ∧
  plan_set (comp (world p)) && error_set (comp (world p)) = false ∧
  (∀ req, req ∈ inflight p → last (sent (world p)) = Some req) ∧
  (∀ req, req ∈ sent (world p) →
     ∃ cr tr, cr ≠ "" ∧ tr ≠ "" ∧ req = Api.request cr tr).

Definition is_Submit (ev : Event) : bool :=
  match ev with
  | Submit => true
  | _ => false
  end.

End FormSession.

(* ===================================================================== *)
(** ** Basic facts about values                                           *)
(* ===================================================================== *)

Section ValueFacts.

Lemma truthy_JStr (s : string) : truthy (JStr s) = false ↔ s = "".
Proof.
  simpl. destruct (String.eqb_spec s ""); simpl; split; congruence.
Qed.


Lemma strict_eq_str_spec (v : JsValue) (lit : string) :
  strict_eq_str v lit = true ↔ v = JStr lit.
Proof.
  destruct v; simpl; try (split; [discriminate | discriminate]).
  destruct (String.eqb_spec s lit); split; congruence.
Qed.

Lemma member_defined (v : JsValue) (k : string) :
  nullish v = false → member v k = Normal (get v k).
Proof. unfold member. by intros ->. Qed.

End ValueFacts.

(* ===================================================================== *)
(** ** The client call and the submit handler                             *)
(* ===================================================================== *)

Section Client.

Import CareerPathGenerator.

(** What the promise of [generateCareerPath] settles to, read off the
    response. *)
Lemma generateCareerPath_run (net : Fetch) (cr tr : string) (w : World) :
  Api.generateCareerPath net cr tr w =
  (match net (Api.request cr tr) with
   | Throw e => Throw e
   | Normal resp =>
       if ok resp then json resp
       else Throw (thrown_Error
              (or_js (optget (optget (Api.json_or_null resp) "error") "message")
                     (JStr Api.generic_message)))
   end,
   mkWorld (comp w) (sent w ++ [Api.request cr tr])).
Proof.
  unfold Api.generateCareerPath, do_fetch, mbind, Eff_bind, throw, await.
  destruct (net (Api.request cr tr)) as [resp|e]; [|done].
  by destruct (ok resp).
Qed.

Lemma handleSubmit_run (net : Fetch) (w : World) :
  handleSubmit net w =
  (Normal (),
   mkWorld
     (match (Api.generateCareerPath net (currentRole (comp w)) (targetRole (comp w)) w).1 with
      | Normal v => mkState (currentRole (comp w)) (targetRole (comp w)) v false ""
      | Throw e => mkState (currentRole (comp w)) (targetRole (comp w)) JNull false (message e)
      end)
     (sent w ++ [Api.request (currentRole (comp w)) (targetRole (comp w))])).
Proof.
  unfold handleSubmit, try_catch_finally, mbind, Eff_bind.
  unfold setIsLoading at 1, setError at 1, setPlan at 1. cbn [comp sent currentRole targetRole plan isLoading error].
  rewrite !generateCareerPath_run. cbn [fst snd comp sent].
  destruct (net _) as [resp|e]; [|done].
  destruct (ok resp); [|done].
  by destruct (json resp).
Qed.

Lemma isButtonDisabled_spec (s : State) :
  isButtonDisabled s = true ↔
  currentRole s = "" ∨ targetRole s = "" ∨ isLoading s = true.
Proof.
  unfold isButtonDisabled.
  rewrite !orb_true_iff, !negb_true_iff, !truthy_JStr. tauto.
Qed.

End Client.

(* ===================================================================== *)
(** ** The submit gate                                                    *)
(* ===================================================================== *)

Section SubmitGate.

Import CareerPathGenerator.

(** C1, as the code has it. The submit gate is closed exactly when
    [currentRole] is the empty string, [targetRole] is the empty string,
    or a request is in flight; while a role is the empty string a submit
    changes nothing and sends no request. The roles are not trimmed. *)
Theorem submit_gate_blocks_empty_roles (net : Fetch) (w : World) :
  (isButtonDisabled (comp w) = true ↔
     currentRole (comp w) = "" ∨ targetRole (comp w) = "" ∨ isLoading (comp w) = true) ∧
  (currentRole (comp w) = "" ∨ targetRole (comp w) = "" →
     submit net w = (Normal (), w)) ∧
  (isButtonDisabled (comp w) = false →
     sent (submit net w).2 =
     (sent w ++ [Api.request (currentRole (comp w)) (targetRole (comp w))])%list).
Proof.
  split; [apply isButtonDisabled_spec|]. split.
  - intros H. unfold submit.
    assert (isButtonDisabled (comp w) = true) as ->; [|done].
    apply isButtonDisabled_spec. tauto.
  - intros H. unfold submit. rewrite H, handleSubmit_run. done.
Qed.

Lemma submit_gate_blocks_empty_roles_witness :
  (currentRole (comp (page "" "Data Scientist")) = "" ∨
   targetRole (comp (page "" "Data Scientist")) = "") ∧
  submit (net_ok sample_plan) (page "" "Data Scientist")
    = (Normal (), page "" "Data Scientist") ∧
  isButtonDisabled (comp (page "Nurse" "Data Scientist")) = false ∧
  sent (submit (net_ok sample_plan) (page "Nurse" "Data Scientist")).2
    = [Api.request "Nurse" "Data Scientist"].
Proof.
  split; [left; reflexivity|]. split.
  - apply (proj1 (proj2 (submit_gate_blocks_empty_roles
                           (net_ok sample_plan) (page "" "Data Scientist")))).
    left; reflexivity.
  - split; [reflexivity|].
    apply (proj2 (proj2 (submit_gate_blocks_empty_roles
                           (net_ok sample_plan) (page "Nurse" "Data Scientist")))).
    reflexivity.
Defined.

(** C1 fails as stated: a role of three spaces is empty after trimming,
    yet the gate is open and the submit sends the request. *)
Lemma whitespace_role_passes_gate :
  blank "   " = true ∧
  isButtonDisabled (comp (page "   " "Data Scientist")) = false ∧
  sent (submit net_down (page "   " "Data Scientist")).2
    = [Api.request "   " "Data Scientist"].
Proof. repeat split; vm_compute; reflexivity. Qed.

End SubmitGate.

(* ===================================================================== *)
(** ** The outcome of a submitted request                                 *)
(* ===================================================================== *)

Section SubmitOutcome.

Import CareerPathGenerator.

(** C3, as the code has it. [handleSubmit] always finishes normally with
    [isLoading] false; [plan] and [error] are never both set. On success
    [plan] is the parsed body and [error] is empty, on failure [plan] is
    null and [error] is the thrown message. So exactly one of the two is
    set unless the body is a falsy JSON value or the message is empty. *)
Theorem handleSubmit_outcome (net : Fetch) (w : World) :
  let settled :=
    (Api.generateCareerPath net (currentRole (comp w)) (targetRole (comp w)) w).1 in
  let s' := comp (handleSubmit net w).2 in
  (handleSubmit net w).1 = Normal () ∧
  isLoading s' = false ∧
  plan_set s' && error_set s' = false ∧
  match settled with
  | Normal v => plan s' = v ∧ error s' = "" ∧ (xorb (plan_set s') (error_set s') = truthy v)
  | Throw e => plan s' = JNull ∧ error s' = message e ∧
               (xorb (plan_set s') (error_set s') = negb (String.eqb (message e) ""))
  end.
Proof.
  intros settled s'. subst s'. rewrite handleSubmit_run. cbn [fst snd comp].
  fold settled. unfold plan_set, error_set.
  destruct settled as [v|e]; cbn [plan error isLoading truthy]; rewrite ?andb_false_r;
    repeat split; by rewrite ?xorb_false_r.
Qed.

Lemma handleSubmit_outcome_witness :
  let s' := comp (handleSubmit (net_ok sample_plan) (page "Nurse" "Data Scientist")).2 in
  isLoading s' = false ∧ plan_set s' && error_set s' = false.
Proof.
  intros s'.
  pose proof (handleSubmit_outcome (net_ok sample_plan) (page "Nurse" "Data Scientist")) as H.
  cbv zeta in H. split; [apply H | apply H].
Defined.

(** C3 fails as stated: after a 200 response whose body is the JSON value
    [null], neither [plan] nor [error] is set, and the page shows neither
    a result nor an error. *)
Lemma null_body_sets_neither :
  let s' := comp (handleSubmit (net_ok JNull) (page "Nurse" "Data Scientist")).2 in
  plan_set s' = false ∧ error_set s' = false ∧ isLoading s' = false ∧
  resultBlock s' = Normal (NValue JNull) ∧ errorBlock s' = NValue (JStr "").
Proof. repeat split. Qed.

End SubmitOutcome.

(* ===================================================================== *)
(** ** What the client call settles to                                    *)
(* ===================================================================== *)

Section ClientCall.

(** C5, as the code has it. The call returns a value only for an ok
    response, and then the parsed body (an ok body that is not JSON
    rejects instead). For a response that is not ok it throws what
    [new Error] makes of the [message] member under the body's [error]
    member when that is truthy, and of the generic message otherwise: a
    string message is passed on as it is, an object gives
    "[object Object]", and an object with a [toString] member of its own
    makes the conversion throw a [TypeError] instead. *)
Theorem generateCareerPath_settles (net : Fetch) (cr tr : string) (w : World) :
  let settled := (Api.generateCareerPath net cr tr w).1 in
  (∀ v, settled = Normal v →
     ∃ resp, net (Api.request cr tr) = Normal resp ∧ ok resp = true ∧ json resp = Normal v) ∧
  (∀ resp, net (Api.request cr tr) = Normal resp → ok resp = true →
     settled = json resp) ∧
  (∀ resp, net (Api.request cr tr) = Normal resp → ok resp = false →
     let m := optget (optget (Api.json_or_null resp) "error") "message" in
     settled = Throw (if truthy m then thrown_Error m else Error Api.generic_message) ∧
     (∀ text, m = JStr text → text ≠ "" → settled = Throw (Error text)) ∧
     (∀ o, m = JObj o → o !! "toString" = None →
        settled = Throw (Error "[object Object]")) ∧
     (∀ o, m = JObj o → is_Some (o !! "toString") →
        settled = Throw (TypeError "Cannot convert object to primitive value"))) ∧
  (∀ resp body err m, net (Api.request cr tr) = Normal resp → ok resp = false →
     json resp = Normal (JObj body) → body !! "error" = Some (JObj err) →
     err !! "message" = Some (JStr m) → m ≠ "" →
     settled = Throw (Error m)) ∧
  (∀ resp body, net (Api.request cr tr) = Normal resp → ok resp = false →
     json resp = Normal (JObj body) → body !! "error" = None →
     settled = Throw (Error Api.generic_message)).
Proof.
  intros settled. subst settled. rewrite generateCareerPath_run. cbn [fst].
  split; [|split; [|split; [|split]]].
  - intros v Hv. destruct (net _) as [resp|e]; [|done].
    exists resp. destruct (ok resp); [done|discriminate].
  - by intros resp -> ->.
  - intros resp -> ->. cbv zeta. unfold or_js.
    set (m := optget (optget (Api.json_or_null resp) "error") "message").
    split; [by destruct (truthy m)|]. split; [|split].
    + intros text -> Ht. destruct (truthy (JStr text)) eqn:E; [done|].
      by apply truthy_JStr in E.
    + intros o -> Ho. cbn [truthy]. unfold thrown_Error. cbn [ToString].
      rewrite Ho. by rewrite bool_decide_eq_false_2; [|by intros [? [=]]].
    + intros o -> Ho. cbn [truthy]. unfold thrown_Error. cbn [ToString].
      by rewrite bool_decide_eq_true_2.
  - intros resp body err m -> -> Hj Hb He Hm.
    unfold Api.json_or_null. rewrite Hj. unfold optget, get. cbn [nullish].
    rewrite Hb. cbn [default from_option id nullish]. rewrite He.
    cbn [default from_option id]. unfold or_js.
    destruct (truthy (JStr m)) eqn:E; [done|]. by apply truthy_JStr in E.
  - intros resp body -> -> Hj Hb.
    unfold Api.json_or_null. rewrite Hj. unfold optget, get. cbn [nullish].
    by rewrite Hb.
Qed.

Lemma generateCareerPath_settles_witness :
  (Api.generateCareerPath (net_fail wrapped_envelope) "Nurse" "Data Scientist"
     (page "Nurse" "Data Scientist")).1
  = Throw (Error "currentRole must not be empty").
Proof.
  pose proof (generateCareerPath_settles (net_fail wrapped_envelope)
                "Nurse" "Data Scientist" (page "Nurse" "Data Scientist")) as H.
  cbv zeta in H. destruct H as (_ & _ & H & _).
  destruct (H (mkResponse false (Normal wrapped_envelope)) eq_refl eq_refl) as [H' _].
  exact H'.
Defined.

(** C5 fails as stated: a response that is not ok and whose body is the
    envelope [{kind, message}] itself makes the call throw the generic
    message, not the envelope's. *)
Lemma bare_envelope_gives_generic_message :
  get envelope "kind" = JStr "ValidationError" ∧
  get envelope "message" = JStr "currentRole must not be empty" ∧
  (Api.generateCareerPath (net_fail envelope) "Nurse" "Data Scientist"
     (page "Nurse" "Data Scientist")).1
  = Throw (Error "An unexpected error occurred while generating the path.").
Proof. repeat split; vm_compute; reflexivity. Qed.

End ClientCall.

(* ===================================================================== *)
(** ** The result display                                                 *)
(* ===================================================================== *)

Section Display.

Lemma agree_on_cons (k : string) (ks : list string) (p p' : JsValue) :
  agree_on (k :: ks) p p' ↔ get p k = get p' k ∧ agree_on ks p p'.
Proof. unfold agree_on. apply (Forall_cons (λ k, get p k = get p' k)). Qed.

Lemma ResultCard_depends_on_fields (p p' : JsValue) :
  truthy p = truthy p' → agree_on career_path_fields p p' →
  ResultCard.ResultCard p = ResultCard.ResultCard p'.
Proof.
  intros Ht H. unfold career_path_fields in H.
  rewrite !agree_on_cons in H. destruct H as (H1 & H2 & H3 & H4 & _).
  unfold ResultCard.ResultCard. by rewrite Ht, H1, H2, H3, H4.
Qed.

Lemma ResultCardV1_depends_on_fields (p p' : JsValue) :
  truthy p = truthy p' → agree_on v1_fields p p' →
  ResultCardV1.ResultCard p = ResultCardV1.ResultCard p'.
Proof.
  intros Ht H. unfold v1_fields in H.
  rewrite !agree_on_cons in H. destruct H as (H1 & H2 & H3 & H4 & _).
  unfold ResultCardV1.ResultCard. by rewrite Ht, H1, H2, H3, H4.
Qed.

Ltac differ k :=
  exists (obj []), (obj [(k, JStr "x")]);
  split; [reflexivity|]; split; [reflexivity|]; split;
  [ vm_compute; repeat constructor
  | vm_compute; discriminate ].

(** C4. The card is a function of the four members [title],
    [skillsToLearn], [skillsWithCourses] and [codeValidationResult] of
    the plan, and each of the four matters to it; the earlier variant is
    a function of [title], [skillsToLearn], [recommendedCourses] and
    [codeValidationResult] in the same way. *)
Theorem ResultCard_reads_career_path_fields :
  (∀ p p', truthy p = truthy p' → agree_on career_path_fields p p' →
     ResultCard.ResultCard p = ResultCard.ResultCard p') ∧
  (∀ k, k ∈ career_path_fields →
     ∃ p p', truthy p = true ∧ truthy p' = true ∧
       agree_on (filter (λ k', k' ≠ k) career_path_fields) p p' ∧
       ResultCard.ResultCard p ≠ ResultCard.ResultCard p') ∧
  (∀ p p', truthy p = truthy p' → agree_on v1_fields p p' →
     ResultCardV1.ResultCard p = ResultCardV1.ResultCard p') ∧
  (∀ k, k ∈ v1_fields →
     ∃ p p', truthy p = true ∧ truthy p' = true ∧
       agree_on (filter (λ k', k' ≠ k) v1_fields) p p' ∧
       ResultCardV1.ResultCard p ≠ ResultCardV1.ResultCard p').
Proof.
  split; [exact ResultCard_depends_on_fields|]. split.
  { intros k Hk. unfold career_path_fields in Hk.
    repeat (apply elem_of_cons in Hk as [->|Hk]); [..|by apply elem_of_nil in Hk].
    - differ "title".
    - differ "skillsToLearn".
    - differ "skillsWithCourses".
    - differ "codeValidationResult". }
  split; [exact ResultCardV1_depends_on_fields|].
  intros k Hk. unfold v1_fields in Hk.
  repeat (apply elem_of_cons in Hk as [->|Hk]); [..|by apply elem_of_nil in Hk].
  - differ "title".
  - differ "skillsToLearn".
  - differ "recommendedCourses".
  - differ "codeValidationResult".
Qed.

Lemma ResultCard_reads_career_path_fields_witness :
  ResultCard.ResultCard sample_plan
  = ResultCard.ResultCard
      (obj [ ("title", get sample_plan "title");
             ("skillsToLearn", get sample_plan "skillsToLearn");
             ("skillsWithCourses", get sample_plan "skillsWithCourses");
             ("codeValidationResult", get sample_plan "codeValidationResult");
             ("traceId", JStr "7f3a") ]).
Proof.
  apply (proj1 ResultCard_reads_career_path_fields); [reflexivity|].
  vm_compute. repeat constructor.
Defined.

Lemma ResultCard_shape (plan : JsValue) (t : Node) :
  truthy plan = true → ResultCard.ResultCard plan = Normal t →
  ∃ items sections,
    ResultCard.skillItems (get plan "skillsToLearn") = Normal items ∧
    ResultCard.skillSections (get plan "skillsWithCourses") = Normal sections ∧
    t = NElem "div" None ResultCard.styles.container []
          [ NElem "div" None ResultCard.styles.header []
              [ NElem "h3" None ResultCard.styles.title []
                  [NValue (or_js (get plan "title") (JStr "Your Recommended Career Path"))] ];
            NElem "div" None ResultCard.styles.section []
              [ NElem "h4" None ResultCard.styles.sectionTitle [] [NText "🎯 Top 3 Skills to Learn"];
                NElem "ol" None ResultCard.styles.list [] [items] ];
            NElem "div" None ResultCard.styles.section []
              [ NElem "h4" None ResultCard.styles.sectionTitle [] [NText "📚 Recommended Courses"];
                sections ];
            ResultCard.overallValidation (get plan "codeValidationResult") ].
Proof.
  intros Ht. unfold ResultCard.ResultCard. rewrite Ht. cbn [negb].
  destruct (ResultCard.skillItems _) as [items|e]; [|discriminate].
  destruct (ResultCard.skillSections _) as [sections|e]; [|discriminate].
  cbn [mret mbind Completion_ret Completion_bind]. intros [= <-]. by exists items, sections.
Qed.

Lemma ResultCard_throws (plan : JsValue) (e : JsError) :
  ResultCard.ResultCard plan = Throw e →
  ResultCard.skillItems (get plan "skillsToLearn") = Throw e ∨
  ResultCard.skillSections (get plan "skillsWithCourses") = Throw e.
Proof.
  unfold ResultCard.ResultCard. destruct (truthy plan); cbn [negb]; [|discriminate].
  destruct (ResultCard.skillItems _) as [items|e1]; [|intros [= <-]; by left].
  destruct (ResultCard.skillSections _) as [sections|e2]; [discriminate|].
  intros [= <-]; by right.
Qed.

Lemma ResultCardV1_last_child (plan : JsValue) (t : Node) :
  truthy plan = true → ResultCardV1.ResultCard plan = Normal t →
  last_child t = Some (ResultCardV1.codeValidation (get plan "codeValidationResult")).
Proof.
  intros Ht. unfold ResultCardV1.ResultCard. rewrite Ht. cbn [negb].
  destruct (ResultCardV1.skillItems _) as [items|e]; [|discriminate].
  destruct (ResultCardV1.courseLinks _) as [links|e]; [|discriminate].
  cbn [mret mbind Completion_ret Completion_bind]. by intros [= <-].
Qed.

(** C7. The sandbox verdict has the two values Success and Failure, and
    every [CareerPath] the orchestrator returns carries one of the two
    texts "Success" and "Failure" as its status. In both variants of the
    card the validation box of a rendered [codeValidationResult] carries
    the success colours exactly when its [status] is the string
    "Success", and the failure colours for every other value, "Failure"
    among them; in both variants the validation section is the last
    child of the card that is returned. *)
Theorem validation_box_styling :
  (∀ s : ValidationStatus,
     (s = Success ∨ s = Failure) ∧
     box_style (ResultCard.overallValidation (obj [("status", JStr (status_text s))]))
       = Some (spread ResultCard.styles.validationBox
                 (if s is Success then ResultCard.styles.validationSuccess
                  else ResultCard.styles.validationError))) ∧
  (∀ cvr, truthy cvr = true →
     (box_style (ResultCard.overallValidation cvr)
        = Some (spread ResultCard.styles.validationBox ResultCard.styles.validationSuccess)
      ↔ get cvr "status" = JStr "Success") ∧
     (get cvr "status" ≠ JStr "Success" →
      box_style (ResultCard.overallValidation cvr)
        = Some (spread ResultCard.styles.validationBox ResultCard.styles.validationError)) ∧
     (box_style (ResultCardV1.codeValidation cvr)
        = Some (spread ResultCardV1.styles.validationBox ResultCardV1.styles.validationSuccess)
      ↔ get cvr "status" = JStr "Success") ∧
     (get cvr "status" ≠ JStr "Success" →
      box_style (ResultCardV1.codeValidation cvr)
        = Some (spread ResultCardV1.styles.validationBox ResultCardV1.styles.validationError))) ∧
  (∀ plan t, truthy plan = true → ResultCard.ResultCard plan = Normal t →
     last_child t = Some (ResultCard.overallValidation (get plan "codeValidationResult"))) ∧
  (∀ plan t, truthy plan = true → ResultCardV1.ResultCard plan = Normal t →
     last_child t = Some (ResultCardV1.codeValidation (get plan "codeValidationResult"))) ∧
  (∀ cfg c r q path,
     Orchestrator.response (Orchestrator.GenerateCareerPath cfg c r q) = Orchestrator.Ok path →
     let text := status_text (Orchestrator.status (Orchestrator.codeValidationResult path)) in
     (text = "Success" ∨ text = "Failure") ∧
     (box_style (ResultCard.overallValidation (obj [("status", JStr text)]))
        = Some (spread ResultCard.styles.validationBox ResultCard.styles.validationSuccess)
      ↔ Orchestrator.status (Orchestrator.codeValidationResult path) = Success)).
Proof.
  split; [intros []; (split; [auto | reflexivity])|].
  split; [|split; [|split; [exact ResultCardV1_last_child|]]]; cycle 2.
  { intros cfg c r q path _ text. subst text.
    destruct (Orchestrator.status _); (split; [auto|]); by split. }
  - intros cvr Ht.
    unfold ResultCard.overallValidation, ResultCardV1.codeValidation. rewrite Ht.
    cbn [box_style].
    destruct (strict_eq_str (get cvr "status") "Success") eqn:E.
    + apply strict_eq_str_spec in E. repeat split; try done.
    + assert (get cvr "status" ≠ JStr "Success") as Hne.
      { intros H. apply strict_eq_str_spec in H. congruence. }
      repeat split; try done; intros H; exfalso; vm_compute in H; discriminate.
  - intros plan t Ht Hr. destruct (ResultCard_shape plan t Ht Hr) as (i & s & _ & _ & ->).
    reflexivity.
Qed.

Lemma validation_box_styling_witness :
  box_style (ResultCard.overallValidation (get sample_plan "codeValidationResult"))
    = Some (spread ResultCard.styles.validationBox ResultCard.styles.validationSuccess) ∧
  box_style (ResultCard.overallValidation (obj [("status", JStr "Failure")]))
    = Some (spread ResultCard.styles.validationBox ResultCard.styles.validationError).
Proof.
  split.
  - apply (proj1 (proj1 (proj2 validation_box_styling)
                    (get sample_plan "codeValidationResult") eq_refl)).
    reflexivity.
  - apply (proj1 (proj2 (proj1 (proj2 validation_box_styling)
                           (obj [("status", JStr "Failure")]) eq_refl))).
    vm_compute. discriminate.
Defined.

(** C9. [ResultCard] returns null for a null and for an undefined plan,
    and [ErrorAlert] returns null for an empty message. In a plan that is
    there, an absent [skillsToLearn] leaves the list with nothing to
    draw, an absent [skillsWithCourses] leaves the courses section with
    nothing to draw, and an absent [codeValidationResult] leaves out the
    validation section; when the card throws, a member that is there made
    it throw, and with all three absent it does not throw. *)
Theorem display_total_on_missing_input :
  ResultCard.ResultCard JNull = Normal (NValue JNull) ∧
  ResultCard.ResultCard JUndefined = Normal (NValue JNull) ∧
  ErrorAlert.ErrorAlert (JStr "") = NValue JNull ∧
  (ResultCard.skillItems JUndefined = Normal (NValue JUndefined) ∧
   ResultCard.skillSections JUndefined = Normal (NValue JUndefined) ∧
   ResultCard.overallValidation JUndefined = NValue JUndefined ∧
   draws_nothing (NValue JUndefined) = true) ∧
  (∀ plan e, ResultCard.ResultCard plan = Throw e →
     (ResultCard.skillItems (get plan "skillsToLearn") = Throw e ∧
      get plan "skillsToLearn" ≠ JUndefined) ∨
     (ResultCard.skillSections (get plan "skillsWithCourses") = Throw e ∧
      get plan "skillsWithCourses" ≠ JUndefined)) ∧
  (∀ plan, truthy plan = true →
     get plan "skillsToLearn" = JUndefined →
     get plan "skillsWithCourses" = JUndefined →
     get plan "codeValidationResult" = JUndefined →
     ResultCard.ResultCard plan =
     Normal (NElem "div" None ResultCard.styles.container []
          [ NElem "div" None ResultCard.styles.header []
              [ NElem "h3" None ResultCard.styles.title []
                  [NValue (or_js (get plan "title") (JStr "Your Recommended Career Path"))] ];
            NElem "div" None ResultCard.styles.section []
              [ NElem "h4" None ResultCard.styles.sectionTitle [] [NText "🎯 Top 3 Skills to Learn"];
                NElem "ol" None ResultCard.styles.list [] [NValue JUndefined] ];
            NElem "div" None ResultCard.styles.section []
              [ NElem "h4" None ResultCard.styles.sectionTitle [] [NText "📚 Recommended Courses"];
                NValue JUndefined ];
            NValue JUndefined ])).
Proof.
  repeat split.
  - intros plan e H. destruct (ResultCard_throws plan e H) as [H'|H'].
    + left. split; [done|]. intros Hu. rewrite Hu in H'. discriminate.
    + right. split; [done|]. intros Hu. rewrite Hu in H'. discriminate.
  - intros plan Ht H1 H2 H3. unfold ResultCard.ResultCard.
    rewrite Ht, H1, H2, H3. reflexivity.
Qed.

Lemma display_total_on_missing_input_witness :
  match ResultCard.ResultCard (obj [("title", JStr "Plan")]) with
  | Normal t => last_child t = Some (NValue JUndefined)
  | Throw _ => False
  end.
Proof.
  rewrite (proj2 (proj2 (proj2 (proj2 (proj2 display_total_on_missing_input))))
             (obj [("title", JStr "Plan")]) eq_refl eq_refl eq_refl eq_refl).
  reflexivity.
Defined.



End Display.

(* ===================================================================== *)
(** ** The orchestrator                                                   *)
(* ===================================================================== *)

Section Pipeline.

Import Orchestrator.

Variables (cfg : Config) (c : Collaborators).

Lemma analyzeStage_ok (input : AnalyzeInput) (gap3 : SkillGap)
    (sat : option (string * list CourseResult)) :
  analyzeStage c input = Ok (gap3, sat) ↔
  ∃ gap, converse c input = Ok (gap, sat) ∧ gap3 = take 3 gap ∧ gap ≠ [].
Proof.
  unfold analyzeStage. destruct (converse c input) as [[gap sat']|k].
  - destruct gap as [|x gap].
    + split; [discriminate|]. intros (g & [= <- <-] & _ & H). done.
    + split.
      * intros [= <- <-]. by exists (x :: gap).
      * intros (g & [= <- <-] & -> & _). done.
  - split; [discriminate|]. by intros (g & H & _).
Qed.

Lemma GenerateCareerPath_ok (r : Run) (q : CareerQuery) (path : CareerPath) :
  response (GenerateCareerPath cfg c r q) = Ok path ↔
  valid cfg q = true ∧
  ∃ gap sat,
    analyzeStage c (mkAnalyzeInput (currentRole q) (targetRole q) (retrieveStage cfg c q).1)
      = Ok (gap, sat) ∧
    path = mkPath (path_title q) gap (fetchStage c sat gap).1
             (validateStage cfg c r (generateStage cfg c (default "" (head gap))).1).1.
Proof.
  unfold GenerateCareerPath. destruct (valid cfg q); cbn [negb].
  2:{ split; [discriminate|]. by intros [? _]. }
  destruct (retrieveStage cfg c q) as [snippets e1]. cbn [fst].
  destruct (analyzeStage c _) as [[gap sat]|k].
  2:{ split; [discriminate|]. by intros (_ & g & s & H & _). }
  destruct (fetchStage c sat gap) as [wc e3] eqn:Ef.
  destruct (generateStage cfg c _) as [sn e4] eqn:Eg.
  destruct (validateStage cfg c r sn) as [vr e5] eqn:Ev.
  cbn [response]. split.
  - intros [= <-]. split; [done|]. exists gap, sat. split; [done|].
    rewrite Ef, Eg. cbn [fst]. by rewrite Ev.
  - intros (_ & g & s & [= <- <-] & ->). rewrite Ef, Eg. cbn [fst]. by rewrite Ev.
Qed.



Lemma dedupe_from_spec (seen l : list string) :
  NoDup (dedupe_from seen l) ∧
  ∀ x, x ∈ dedupe_from seen l ↔ x ∈ l ∧ x ∉ seen.
Proof.
  revert seen. induction l as [|y l IH]; intros seen; cbn [dedupe_from].
  { split; [constructor|]. intros x. rewrite elem_of_nil. tauto. }
  case_bool_decide as Hy.
  - destruct (IH seen) as [Hn Hx]. split; [done|].
    intros x. rewrite Hx, elem_of_cons. split; [tauto|].
    intros [[->|Hl] Hs]; tauto.
  - destruct (IH (y :: seen)) as [Hn Hx]. split.
    + constructor; [|done]. rewrite Hx, elem_of_cons. tauto.
    + intros x. rewrite !elem_of_cons, Hx, elem_of_cons.
      destruct (decide (x = y)) as [->|Hne]; tauto.
Qed.

Lemma dedupe_spec (l : list string) :
  NoDup (dedupe l) ∧ ∀ x, x ∈ dedupe l ↔ x ∈ l.
Proof.
  destruct (dedupe_from_spec [] l) as [Hn Hx]. split; [done|].
  intros x. unfold dedupe. rewrite Hx, elem_of_nil. tauto.
Qed.

Lemma fetchStage_slot (sat : option (string * list CourseResult)) (gap : SkillGap)
    (i : nat) :
  (fetchStage c sat gap).1 !! i = (λ s, (courseSlot c sat s).1) <$> dedupe gap !! i.
Proof.
  unfold fetchStage. cbn [fst]. rewrite !list_lookup_fmap.
  by destruct (dedupe gap !! i).
Qed.

Lemma analyzeStage_round (r : Run) (q : CareerQuery) (gap : SkillGap)
    (sat : option (string * list CourseResult)) :
  analyzeStage c (mkAnalyzeInput (currentRole q) (targetRole q) (retrieveStage cfg c q).1)
    = Ok (gap, sat) →
  round_result cfg c q = sat.
Proof.
  intros (g & Hc & _)%analyzeStage_ok. unfold round_result. by rewrite Hc.
Qed.

(** C6. The course lists are joined positionally over the distinct
    skills, and each slot is decided by that skill's own call. So when
    the call for one skill fails, that skill maps to the empty course
    list, and every other skill whose call returned a list keeps exactly
    that list (non-empty when the returned list is). *)
Theorem fan_out_isolation (r : Run) (q : CareerQuery) (path : CareerPath) :
  response (GenerateCareerPath cfg c r q) = Ok path →
  let skills := dedupe (skillsToLearn path) in
  let sat := round_result cfg c q in
  skill <$> skillsWithCourses path = skills ∧
  (∀ j s, skills !! j = Some s →
     skillsWithCourses path !! j = Some (courseSlot c sat s).1) ∧
  (∀ i f e, skills !! i = Some f → already sat f = None →
     Invoke c course_search (search_args f) = Err e →
     skillsWithCourses path !! i = Some (mkSkillCourses f []) ∧
     ∀ j s cs, j ≠ i → skills !! j = Some s → already sat s = None →
       Invoke c course_search (search_args s) = Ok cs →
       skillsWithCourses path !! j = Some (mkSkillCourses s cs) ∧
       (cs ≠ [] → ∀ sc, skillsWithCourses path !! j = Some sc → courses sc ≠ [])).
Proof.
  intros (_ & gap & sat' & Ha & ->)%GenerateCareerPath_ok skills sat.
  cbn [skillsToLearn skillsWithCourses] in *.
  assert (sat = sat') as <- by (by eapply analyzeStage_round).
  assert (∀ j s, skills !! j = Some s →
            (fetchStage c sat gap).1 !! j = Some (courseSlot c sat s).1) as Hslot.
  { intros j s Hj. rewrite fetchStage_slot. fold skills. by rewrite Hj. }
  split.
  { unfold fetchStage. cbn [fst]. rewrite <- !list_fmap_compose.
    fold skills. clear Hslot. induction skills as [|x l IH]; [done|].
    cbn [fmap list_fmap]. f_equal; [|done].
    unfold compose, courseSlot. destruct (already sat x); [done|].
    by destruct (Invoke c _ _). }
  split; [done|].
  intros i f e Hi Hf He. split.
  - rewrite (Hslot i f Hi). unfold courseSlot. by rewrite Hf, He.
  - intros j s cs _ Hj Hs Hcs.
    assert ((fetchStage c sat gap).1 !! j = Some (mkSkillCourses s cs)) as Hr.
    { rewrite (Hslot j s Hj). unfold courseSlot. by rewrite Hs, Hcs. }
    split; [done|]. intros Hne sc. rewrite Hr. by intros [= <-].
Qed.

(** C8. Two runs on the same query against the same collaborators agree
    on [skillsToLearn] and on the status of [codeValidationResult] (and
    on the kind of error when the request fails), whatever trace ids,
    clock readings and measured execution times the two runs have. *)
Theorem stable_fields_deterministic (r1 r2 : Run) (q : CareerQuery) :
  stable (GenerateCareerPath cfg c r1 q) = stable (GenerateCareerPath cfg c r2 q).
Proof.
  unfold GenerateCareerPath. destruct (valid cfg q); cbn [negb]; [|done].
  destruct (retrieveStage cfg c q) as [snippets e1].
  destruct (analyzeStage c _) as [[gap sat]|k]; [|done].
  destruct (fetchStage c sat gap) as [wc e3].
  destruct (generateStage cfg c _) as [sn e4].
  unfold validateStage.
  by destruct (Validate c _ _ _) as [[[st out] err]|f].
Qed.

End Pipeline.

Section PipelineExamples.

Import Orchestrator.



Lemma fan_out_isolation_witness :
  match response (GenerateCareerPath demo_cfg demo_one_down demo_run demo_query) with
  | Ok path =>
      skillsWithCourses path !! 1%nat = Some (mkSkillCourses "ML Fundamentals" []) ∧
      skillsWithCourses path !! 0%nat = Some (mkSkillCourses "Python" (demo_courses "Python")) ∧
      skillsWithCourses path !! 2%nat
        = Some (mkSkillCourses "Data Structures" (demo_courses "Data Structures"))
  | Err _ => False
  end.
Proof.
  pose proof (fan_out_isolation demo_cfg demo_one_down demo_run demo_query) as H.
  destruct (response _) as [path|e] eqn:E; [|vm_compute in E; discriminate].
  destruct (H path eq_refl) as (_ & _ & H3).
  assert (skillsToLearn path = ["Python"; "ML Fundamentals"; "Data Structures"]) as Hs.
  { vm_compute in E. by injection E as <-. }
  rewrite Hs in H3.
  destruct (H3 1%nat "ML Fundamentals" ToolError eq_refl eq_refl eq_refl) as [Hf Ho].
  split; [exact Hf|]. split.
  - apply (Ho 0%nat "Python" (demo_courses "Python")); [lia|reflexivity..].
  - apply (Ho 2%nat "Data Structures" (demo_courses "Data Structures")); [lia|reflexivity..].
Defined.

(** The end-to-end scenario of the specification. *)
Example end_to_end_scenario :
  stable (GenerateCareerPath demo_cfg demo demo_run demo_query)
  = Ok (["Python"; "ML Fundamentals"; "Data Structures"], Success).
Proof. reflexivity. Qed.

Lemma stable_fields_deterministic_witness :
  stable (GenerateCareerPath demo_cfg demo other_run demo_query)
  = stable (GenerateCareerPath demo_cfg demo demo_run demo_query).
Proof. apply stable_fields_deterministic. Defined.

Example blank_role_is_rejected :
  stable (GenerateCareerPath demo_cfg demo demo_run (mkQuery "   " "Data Scientist"))
  = Err ValidationError.
Proof. reflexivity. Qed.

End PipelineExamples.

(* ===================================================================== *)
(** ** The form over time                                                 *)
(* ===================================================================== *)

Section Session.

Import CareerPathGenerator FormSession.

Lemma handleSubmit_start_run (w : World) :
  handleSubmit_start w =
  (Normal (Api.request (currentRole (comp w)) (targetRole (comp w))),
   mkWorld (mkState (currentRole (comp w)) (targetRole (comp w)) JNull true "")
     (sent w ++ [Api.request (currentRole (comp w)) (targetRole (comp w))])).
Proof. reflexivity. Qed.

Lemma handleSubmit_resume_run (answer : Completion Response) (w : World) :
  handleSubmit_resume answer w =
  (Normal (),
   mkWorld
     (match after_fetch answer with
      | Normal v =>
          mkState (currentRole (comp w)) (targetRole (comp w)) v false (error (comp w))
      | Throw e =>
          mkState (currentRole (comp w)) (targetRole (comp w)) (plan (comp w)) false
            (message e)
      end)
     (sent w)).
Proof.
  unfold handleSubmit_resume, try_catch_finally, mbind, Eff_bind, await.
  by destruct (after_fetch answer).
Qed.

(** The handler is its first half followed, once the answer is there, by
    its second half. *)
Lemma handleSubmit_splits (net : Fetch) (w : World) :
  handleSubmit net w =
  handleSubmit_resume (net (Api.request (currentRole (comp w)) (targetRole (comp w))))
    (handleSubmit_start w).2.
Proof.
  rewrite handleSubmit_run, generateCareerPath_run, handleSubmit_start_run,
    handleSubmit_resume_run.
  cbn [fst snd comp sent currentRole targetRole plan error].
  unfold after_fetch, mbind, Completion_bind.
  destruct (net _) as [resp|e]; [|done].
  destruct (ok resp); cbn [negb]; [|done].
  by destruct (json resp).
Qed.

Lemma fresh_settled : settled_or_waiting fresh.
Proof.
  unfold settled_or_waiting, fresh. cbn.
  split; [lia|]. split; [done|]. split; [done|]. split; [done|].
  split; intros req H; by apply elem_of_nil in H.
Qed.

Lemma step_keeps (ev : Event) (p : Session) :
  settled_or_waiting p → settled_or_waiting (step ev p).
Proof.
  intros (Hlen & Hload & Hwait & Hone & Hlast & Hsent).
  destruct p as [[s snt] fl]. cbn [world inflight comp sent] in *.
  destruct ev as [v|v| |answer]; cbn [step world inflight comp].
  - unfold settled_or_waiting, plan_set, error_set in *. cbn in *. tauto.
  - unfold settled_or_waiting, plan_set, error_set in *. cbn in *. tauto.
  - destruct (isButtonDisabled s) eqn:Hd; [unfold settled_or_waiting; cbn [world inflight comp sent]; tauto|].
    rewrite handleSubmit_start_run. cbn [world inflight comp sent fst snd].
    assert (isLoading s = false) as Hl.
    { destruct (isLoading s) eqn:E; [|done].
      assert (isButtonDisabled s = true) by (apply isButtonDisabled_spec; tauto).
      congruence. }
    assert (fl = []) as ->.
    { destruct fl; [done|]. destruct Hload as [_ Hload].
      rewrite Hload in Hl; [done|discriminate]. }
    assert (currentRole s ≠ "" ∧ targetRole s ≠ "") as [Hc Ht].
    { split; intros E;
        assert (isButtonDisabled s = true) by (apply isButtonDisabled_spec; tauto);
        congruence. }
    unfold settled_or_waiting.
    cbn [world inflight comp sent currentRole targetRole plan isLoading error app length].
    split; [lia|]. split; [done|]. split; [done|]. split; [done|]. split.
    + intros req ->%list_elem_of_singleton. by rewrite last_snoc.
    + intros req [H| ->%list_elem_of_singleton]%elem_of_app; [by apply Hsent|].
      by exists (currentRole s), (targetRole s).
  - destruct fl as [|req rest]; [unfold settled_or_waiting; cbn [world inflight comp sent]; tauto|].
    rewrite handleSubmit_resume_run. cbn [world inflight comp sent fst snd].
    assert (rest = []) as ->.
    { destruct rest; [done|]. cbn in Hlen. lia. }
    destruct (Hwait ltac:(discriminate)) as [Hp He].
    cbn [plan error] in Hp, He.
    unfold settled_or_waiting, plan_set, error_set.
    cbn [world inflight comp sent length].
    split; [lia|]. split; [by destruct (after_fetch answer)|].
    split; [done|]. split.
    { destruct (after_fetch answer) as [v|e]; cbn [plan error].
      - by rewrite He, andb_false_r.
      - by rewrite Hp. }
    split; [|done]. intros r H. by apply elem_of_nil in H.
Qed.

Lemma run_keeps (evs : list Event) (p : Session) :
  settled_or_waiting p → settled_or_waiting (run evs p).
Proof.
  revert p. induction evs as [|ev evs IH]; intros p Hp; [done|].
  apply (IH (step ev p)). by apply step_keeps.
Qed.

Lemma request_roles (cr tr : string) :
  get (body (Api.request cr tr)) "currentRole" = JStr cr ∧
  get (body (Api.request cr tr)) "targetRole" = JStr tr.
Proof.
  unfold Api.request, obj. cbn [body get list_to_map foldr uncurry fst snd].
  split.
  - by rewrite lookup_insert_eq.
  - rewrite lookup_insert_ne; [|done]. by rewrite lookup_insert_eq.
Qed.

Lemma sent_grows_by_submits (evs : list Event) (p : Session) :
  (length (sent (world (run evs p)))
   ≤ length (sent (world p)) + length (filter (λ ev, is_Submit ev = true) evs))%nat.
Proof.
  revert p. induction evs as [|ev evs IH]; intros p; [cbn; lia|].
  change (run (ev :: evs) p) with (run evs (step ev p)).
  etrans; [apply IH|].
  destruct ev as [v|v| |answer]; cbn [step].
  - rewrite filter_cons_False; [|done]. cbn. lia.
  - rewrite filter_cons_False; [|done]. cbn. lia.
  - rewrite filter_cons_True; [|done]. cbn [length].
    destruct (isButtonDisabled _); [lia|].
    rewrite handleSubmit_start_run. cbn [world sent]. rewrite length_app. cbn. lia.
  - rewrite filter_cons_False; [|done].
    destruct (inflight p); [cbn; lia|].
    rewrite handleSubmit_resume_run. cbn. lia.
Qed.

(** X1. Whatever is typed, submitted and answered, at most one request is
    awaited at any moment, [isLoading] is true exactly while one is, and
    a submit made while one is awaited changes nothing. *)
Theorem one_request_in_flight (evs : list Event) :
  let p := run evs fresh in
  (length (inflight p) ≤ 1)%nat ∧
  (isLoading (comp (world p)) = true ↔ inflight p ≠ []) ∧
  (inflight p ≠ [] → step Submit p = p).
Proof.
  intros p. destruct (run_keeps evs fresh fresh_settled) as (Hlen & Hload & _).
  fold p in Hlen, Hload. split; [done|]. split; [done|].
  intros Hw. cbn [step].
  assert (isButtonDisabled (comp (world p)) = true) as ->; [|done].
  apply isButtonDisabled_spec. right; right. by apply Hload.
Qed.

Lemma one_request_in_flight_witness :
  inflight (run [TypeCurrent "Nurse"; TypeTarget "Data Scientist"; Submit] fresh) ≠ [] ∧
  run [TypeCurrent "Nurse"; TypeTarget "Data Scientist"; Submit; Submit] fresh
  = run [TypeCurrent "Nurse"; TypeTarget "Data Scientist"; Submit] fresh.
Proof.
  split; [discriminate|].
  apply (proj2 (proj2 (one_request_in_flight
                         [TypeCurrent "Nurse"; TypeTarget "Data Scientist"; Submit]))).
  discriminate.
Defined.

(** X2. Every request the form ever sends is a POST to
    [/api/generate-career-path] whose body carries two roles that are not
    empty, under [currentRole] and [targetRole]; and the form sends no
    more requests than it was submitted. *)
Theorem requests_carry_typed_roles (evs : list Event) :
  (∀ req, req ∈ sent (world (run evs fresh)) →
     url req = "/api/generate-career-path" ∧ method req = "POST" ∧
     ∃ cr tr, cr ≠ "" ∧ tr ≠ "" ∧
       get (body req) "currentRole" = JStr cr ∧
       get (body req) "targetRole" = JStr tr) ∧
  (length (sent (world (run evs fresh)))
   ≤ length (filter (λ ev, is_Submit ev = true) evs))%nat.
Proof.
  split.
  - intros req Hreq.
    destruct (run_keeps evs fresh fresh_settled) as (_ & _ & _ & _ & _ & Hsent).
    destruct (Hsent req Hreq) as (cr & tr & Hc & Ht & ->).
    split; [done|]. split; [done|]. exists cr, tr.
    destruct (request_roles cr tr). by repeat split.
  - apply (sent_grows_by_submits evs fresh).
Qed.

Lemma requests_carry_typed_roles_witness :
  Api.request "Nurse" "Data Scientist"
    ∈ sent (world (run [TypeCurrent "Nurse"; TypeTarget "Data Scientist"; Submit] fresh)) ∧
  method (Api.request "Nurse" "Data Scientist") = "POST".
Proof.
  assert (Api.request "Nurse" "Data Scientist"
            ∈ sent (world (run [TypeCurrent "Nurse"; TypeTarget "Data Scientist"; Submit]
                             fresh))) as H by apply list_elem_of_here.
  split; [exact H|].
  apply (proj1 (requests_carry_typed_roles
                  [TypeCurrent "Nurse"; TypeTarget "Data Scientist"; Submit]) _ H).
Defined.

(** X3. At every moment of a session at most one of the result and the
    error is on the page, and while a request is awaited neither is: the
    error block and the result block both hold a value React draws
    nothing for. *)
Theorem page_shows_result_or_error (evs : list Event) :
  let p := run evs fresh in
  let s := comp (world p) in
  (errorBlock s = NValue (JStr "") ∨ resultBlock s = Normal (NValue (plan s))) ∧
  (inflight p ≠ [] →
     errorBlock s = NValue (JStr "") ∧ resultBlock s = Normal (NValue JNull)).
Proof.
  intros p s. destruct (run_keeps evs fresh fresh_settled) as (_ & _ & Hwait & Hone & _).
  fold p in Hwait, Hone. fold s in Hwait, Hone. split.
  - unfold errorBlock, resultBlock. unfold plan_set, error_set in Hone.
    destruct (truthy (plan s)); [|by right].
    cbn [andb] in Hone. rewrite Hone. left.
    apply truthy_JStr in Hone. by rewrite Hone.
  - intros Hw. destruct (Hwait Hw) as [Hp He].
    unfold errorBlock, resultBlock. by rewrite Hp, He.
Qed.

Lemma page_shows_result_or_error_witness :
  let s := comp (world (run [TypeCurrent "Nurse"; TypeTarget "Data Scientist"; Submit] fresh)) in
  errorBlock s = NValue (JStr "") ∧ resultBlock s = Normal (NValue JNull).
Proof.
  apply (proj2 (page_shows_result_or_error
                  [TypeCurrent "Nurse"; TypeTarget "Data Scientist"; Submit])).
  discriminate.
Defined.

(** X4. The button reads "Generating..." exactly while a request is
    awaited; it is then disabled, has no arrow, and the spinner is on the
    page. Otherwise it reads "Generate Path" and there is no spinner. *)
Theorem button_tells_waiting (evs : list Event) :
  let p := run evs fresh in
  let s := comp (world p) in
  (children_of (submitButton s) !! 0%nat = Some (NValue (JStr "Generating..."))
   ↔ inflight p ≠ []) ∧
  (inflight p ≠ [] →
     attrs_of (submitButton s) !! 2%nat = Some ("disabled", JBool true) ∧
     children_of (submitButton s) !! 1%nat = Some (NValue (JBool false)) ∧
     children_of (loadingBlock s) = [LoadingSpinner.LoadingSpinner]) ∧
  (inflight p = [] →
     children_of (submitButton s) !! 0%nat = Some (NValue (JStr "Generate Path")) ∧
     loadingBlock s = NValue (JBool false)).
Proof.
  intros p s. destruct (run_keeps evs fresh fresh_settled) as (_ & Hload & _).
  fold p in Hload. fold s in Hload.
  unfold submitButton, loadingBlock, isButtonDisabled. cbn [children_of attrs_of].
  destruct (isLoading s) eqn:Hl.
  - assert (inflight p ≠ []) as Hw by (by apply Hload).
    split; [done|]. split; [|done]. intros _. by rewrite orb_true_r.
  - assert (inflight p = []) as Hw.
    { destruct (decide (inflight p = [])) as [|Hne]; [done|].
      apply Hload in Hne. congruence. }
    split; [|done]. split; [discriminate|done].
Qed.

Lemma button_tells_waiting_witness :
  let s := comp (world (run [TypeCurrent "Nurse"; TypeTarget "Data Scientist"; Submit] fresh)) in
  attrs_of (submitButton s) !! 2%nat = Some ("disabled", JBool true) ∧
  children_of (submitButton s) !! 1%nat = Some (NValue (JBool false)) ∧
  children_of (loadingBlock s) = [LoadingSpinner.LoadingSpinner].
Proof.
  apply (proj1 (proj2 (button_tells_waiting
                         [TypeCurrent "Nurse"; TypeTarget "Data Scientist"; Submit]))).
  discriminate.
Defined.

(** X5. Key strokes made while the answer is awaited are kept and change
    neither the request nor the outcome: typing and the arrival of the
    answer commute, and typing leaves the requests sent and awaited as
    they are. *)
Theorem typing_commutes_with_answer (p : Session) (v : string)
    (answer : Completion Response) :
  step (Arrive answer) (step (TypeCurrent v) p)
    = step (TypeCurrent v) (step (Arrive answer) p) ∧
  step (Arrive answer) (step (TypeTarget v) p)
    = step (TypeTarget v) (step (Arrive answer) p) ∧
  sent (world (step (TypeCurrent v) p)) = sent (world p) ∧
  sent (world (step (TypeTarget v) p)) = sent (world p) ∧
  inflight (step (TypeCurrent v) p) = inflight p ∧
  inflight (step (TypeTarget v) p) = inflight p.
Proof.
  destruct p as [[s snt] fl].
  repeat split; cbn [step world inflight];
    (destruct fl as [|req rest]; [done|]);
    rewrite !handleSubmit_resume_run; cbn;
    by destruct (after_fetch answer).
Qed.

End Session.

(* ===================================================================== *)
(** ** Lists in the result display                                        *)
(* ===================================================================== *)

Section DisplayLists.


Lemma map_indexed_lookup {A B} (f : A → nat → Completion B) (i : nat) (l : list A)
    (ys : list B) :
  map_indexed f i l = Normal ys →
  length ys = length l ∧
  ∀ j x, l !! j = Some x → ∃ y, ys !! j = Some y ∧ f x (i + j) = Normal y.
Proof.
  revert i ys. induction l as [|x l IH]; intros i ys; cbn [map_indexed].
  { intros [= <-]. split; [done|]. intros j x H. by rewrite lookup_nil in H. }
  destruct (f x i) as [y|e] eqn:Ef; [|discriminate].
  cbn [mbind Completion_bind].
  destruct (map_indexed f (S i) l) as [ys'|e] eqn:Em; [|discriminate].
  cbn [mbind mret Completion_bind Completion_ret]. intros [= <-].
  destruct (IH (S i) ys' Em) as [Hlen Hl]. split; [cbn; by rewrite Hlen|].
  intros [|j] x'; cbn.
  - intros [= <-]. exists y. by rewrite Nat.add_0_r.
  - intros H. destruct (Hl j x' H) as (y' & Hy & Hf). exists y'. split; [done|].
    by replace (i + S j)%nat with (S i + j)%nat by lia.
Qed.

(** A [.map] succeeds exactly when its callback succeeds on every
    element, and otherwise throws what the callback threw. *)
Lemma map_indexed_spec {A B} (f : A → nat → Completion B) (good : A → bool)
    (P : JsError → Prop) (i : nat) (l : list A) :
  (∀ x j, match f x j with
          | Normal _ => good x = true
          | Throw e => good x = false ∧ P e
          end) →
  match map_indexed f i l with
  | Normal _ => forallb good l = true
  | Throw e => forallb good l = false ∧ P e
  end.
Proof.
  intros Hf. revert i. induction l as [|x l IH]; intros i; [done|].
  cbn [map_indexed forallb]. specialize (Hf x i). specialize (IH (S i)).
  destruct (f x i) as [y|e]; cbn [mbind Completion_bind].
  - rewrite Hf. cbn [andb]. by destruct (map_indexed f (S i) l).
  - destruct Hf as [-> HP]. done.
Qed.

Lemma js_map_spec (name : string) (v : JsValue) (cb : JsValue → nat → Completion Node)
    (good : JsValue → bool) :
  truthy v = true →
  (∀ x j, match cb x j with
          | Normal _ => good x = true
          | Throw e => good x = false ∧ is_TypeError e = true
          end) →
  match js_map name v cb with
  | Normal _ => listable v && forallb good (entries v) = true
  | Throw e => listable v && forallb good (entries v) = false ∧ is_TypeError e = true
  end.
Proof.
  intros Ht Hcb.
  destruct v as [| |b|r|s|l|m]; cbn [js_map listable entries]; try (by rewrite Ht).
  pose proof (map_indexed_spec cb good (λ e, is_TypeError e = true) 0 l Hcb) as H.
  cbn [andb]. by destruct (map_indexed cb 0 l).
Qed.

Lemma guarded_map_spec (name : string) (v : JsValue)
    (cb : JsValue → nat → Completion Node) (good : JsValue → bool) :
  (∀ x j, match cb x j with
          | Normal _ => good x = true
          | Throw e => good x = false ∧ is_TypeError e = true
          end) →
  match (if truthy v then js_map name v cb else mret (NValue v)) with
  | Normal _ => listable v && forallb good (entries v) = true
  | Throw e => listable v && forallb good (entries v) = false ∧ is_TypeError e = true
  end.
Proof.
  intros Hcb. destruct (truthy v) eqn:Ht; [by apply js_map_spec|].
  destruct v; try done; cbn [listable entries]; by rewrite Ht.
Qed.

Lemma courseLink_spec (course : JsValue) (j : nat) :
  match ResultCard.courseLink course j with
  | Normal _ => course_ok course = true
  | Throw e => course_ok course = false ∧ is_TypeError e = true
  end.
Proof.
  unfold ResultCard.courseLink, member, course_ok. by destruct (nullish course).
Qed.

Lemma courseLinkV1_spec (course : JsValue) (j : nat) :
  match ResultCardV1.courseLink course j with
  | Normal _ => course_ok course = true
  | Throw e => course_ok course = false ∧ is_TypeError e = true
  end.
Proof.
  unfold ResultCardV1.courseLink, member, course_ok. by destruct (nullish course).
Qed.

Lemma skillItem_spec (skill : JsValue) (j : nat) :
  match ResultCard.skillItem skill j with
  | Normal _ => (λ _, true) skill = true
  | Throw e => (λ _, true) skill = false ∧ is_TypeError e = true
  end.
Proof. done. Qed.

Lemma forallb_true_const (l : list JsValue) : forallb (λ _, true) l = true.
Proof. by induction l. Qed.

Lemma skillItems_spec (v : JsValue) :
  match ResultCard.skillItems v with
  | Normal _ => listable v = true
  | Throw e => listable v = false ∧ is_TypeError e = true
  end.
Proof.
  pose proof (guarded_map_spec "skillsToLearn" v ResultCard.skillItem (λ _, true)
                skillItem_spec) as H.
  rewrite forallb_true_const, andb_true_r in H. exact H.
Qed.

Lemma skillSection_spec (skillData : JsValue) (j : nat) :
  match ResultCard.skillSection skillData j with
  | Normal _ => skillData_ok skillData = true
  | Throw e => skillData_ok skillData = false ∧ is_TypeError e = true
  end.
Proof.
  unfold ResultCard.skillSection, member, skillData_ok, ResultCard.courseLinks.
  destruct (nullish skillData); [done|]. cbn [negb andb mbind Completion_bind].
  pose proof (guarded_map_spec "skillData.courses" (get skillData "courses")
                ResultCard.courseLink course_ok courseLink_spec) as H.
  by destruct (if truthy _ then _ else _).
Qed.

Lemma ResultCard_spec (plan : JsValue) :
  match ResultCard.ResultCard plan with
  | Normal _ => renderable plan = true
  | Throw e => renderable plan = false ∧ is_TypeError e = true
  end.
Proof.
  unfold ResultCard.ResultCard, renderable.
  destruct (truthy plan); cbn [negb orb]; [|done].
  pose proof (skillItems_spec (get plan "skillsToLearn")) as H1.
  pose proof (guarded_map_spec "skillsWithCourses" (get plan "skillsWithCourses")
                ResultCard.skillSection skillData_ok skillSection_spec) as H2.
  fold (ResultCard.skillSections (get plan "skillsWithCourses")) in H2.
  destruct (ResultCard.skillItems _) as [items|e]; cbn [mbind Completion_bind].
  - rewrite H1. cbn [andb].
    by destruct (ResultCard.skillSections _) as [sections|e].
  - destruct H1 as [-> H1]. done.
Qed.

Lemma ResultCardV1_spec (plan : JsValue) :
  match ResultCardV1.ResultCard plan with
  | Normal _ => renderable_v1 plan = true
  | Throw e => renderable_v1 plan = false ∧ is_TypeError e = true
  end.
Proof.
  unfold ResultCardV1.ResultCard, renderable_v1.
  destruct (truthy plan); cbn [negb orb]; [|done].
  pose proof (skillItems_spec (get plan "skillsToLearn")) as H1.
  change (ResultCard.skillItems ?v) with (ResultCardV1.skillItems v) in H1.
  pose proof (guarded_map_spec "recommendedCourses" (get plan "recommendedCourses")
                ResultCardV1.courseLink course_ok courseLinkV1_spec) as H2.
  fold (ResultCardV1.courseLinks (get plan "recommendedCourses")) in H2.
  destruct (ResultCardV1.skillItems _) as [items|e]; cbn [mbind Completion_bind].
  - rewrite H1. cbn [andb].
    by destruct (ResultCardV1.courseLinks _) as [links|e].
  - destruct H1 as [-> H1]. done.
Qed.


(** X7. The card renders a plan exactly when the plan is falsy, or its
    [skillsToLearn] and [skillsWithCourses] are each falsy or an array,
    no entry of [skillsWithCourses] is null or undefined, and the
    [courses] of every entry are falsy or an array without null or
    undefined entries. On every other plan it throws a [TypeError]. *)
Theorem ResultCard_renders_iff (plan : JsValue) :
  ((∃ t, ResultCard.ResultCard plan = Normal t) ↔ renderable plan = true) ∧
  (∀ e, ResultCard.ResultCard plan = Throw e →
     renderable plan = false ∧ is_TypeError e = true).
Proof.
  pose proof (ResultCard_spec plan) as H.
  destruct (ResultCard.ResultCard plan) as [t|e].
  - split; [|discriminate]. split; [done|]. by exists t.
  - destruct H as [H1 H2]. split.
    + split; [by intros [t [=]]|]. congruence.
    + by intros e' [= <-].
Qed.

Lemma ResultCard_renders_iff_witness :
  match ResultCard.ResultCard sample_plan with
  | Normal _ => True
  | Throw _ => False
  end ∧
  renderable (obj [("skillsToLearn", JStr "Python")]) = false.
Proof.
  split.
  - destruct (proj2 (proj1 (ResultCard_renders_iff sample_plan)) eq_refl) as [t ->].
    exact I.
  - apply (proj2 (ResultCard_renders_iff (obj [("skillsToLearn", JStr "Python")]))
             (TypeError "skillsToLearn.map is not a function")).
    reflexivity.
Defined.

(** X8. Inside a code example the validation box is the fourth child; it
    is left out when [validation] is falsy. When it is there it carries
    the success colours exactly when [validation.status] is the string
    "Success" and the failure colours otherwise, and it holds an output
    block exactly when [validation.output] is truthy. *)
Theorem snippet_validation_box (code_snippet : JsValue) :
  truthy code_snippet = true →
  let validation := get code_snippet "validation" in
  children_of (ResultCard.codeSection code_snippet) !! 3%nat
    = Some (ResultCard.snippetValidation validation) ∧
  (truthy validation = false → ResultCard.snippetValidation validation = NValue validation) ∧
  (truthy validation = true →
     (style_of (ResultCard.snippetValidation validation)
        = spread ResultCard.styles.validationBox ResultCard.styles.validationSuccess
      ↔ get validation "status" = JStr "Success") ∧
     (get validation "status" ≠ JStr "Success" →
      style_of (ResultCard.snippetValidation validation)
        = spread ResultCard.styles.validationBox ResultCard.styles.validationError) ∧
     (children_of (ResultCard.snippetValidation validation) !! 1%nat
        = Some (NElem "pre" None ResultCard.styles.outputBlock []
                  [NValue (get validation "output")])
      ↔ truthy (get validation "output") = true)).
Proof.
  intros Hc validation. unfold ResultCard.codeSection. rewrite Hc.
  split; [done|]. unfold ResultCard.snippetValidation.
  split; [by intros ->|]. intros ->. cbn [style_of children_of].
  split; [|split].
  - destruct (strict_eq_str (get validation "status") "Success") eqn:E.
    + apply strict_eq_str_spec in E. by split.
    + split; [intros H; vm_compute in H; discriminate|].
      intros H. apply strict_eq_str_spec in H. congruence.
  - intros Hne. destruct (strict_eq_str (get validation "status") "Success") eqn:E; [|done].
    by apply strict_eq_str_spec in E.
  - destruct (truthy (get validation "output")); cbn; split; congruence.
Qed.

Lemma snippet_validation_box_witness :
  children_of (ResultCard.codeSection
     (obj [("code", JStr "print(1)");
           ("validation", obj [("status", JStr "Failure")])])) !! 3%nat
  = Some (ResultCard.snippetValidation
            (get (obj [("code", JStr "print(1)");
                       ("validation", obj [("status", JStr "Failure")])]) "validation")).
Proof.
  apply (snippet_validation_box
           (obj [("code", JStr "print(1)");
                 ("validation", obj [("status", JStr "Failure")])]) eq_refl).
Defined.



(** X10. A [skillsWithCourses] array of renderable entries renders as one
    section per entry, in order: section [i] is keyed [i] and holds the
    entry's [skill] as heading, the links of its [courses], and the code
    example of its [code_snippet]. *)
Theorem skill_sections_in_order (l : list JsValue) :
  forallb skillData_ok l = true →
  ∃ ns, ResultCard.skillSections (JArr l) = Normal (NArr ns) ∧
    length ns = length l ∧
    ∀ i skillData, l !! i = Some skillData →
      ∃ links, ResultCard.courseLinks (get skillData "courses") = Normal links ∧
        ns !! i = Some
          (NElem "div" (Some i) ResultCard.styles.skillSection []
             [ NElem "h5" None ResultCard.styles.skillName [] [NValue (get skillData "skill")];
               NElem "div" None ResultCard.styles.courseList [] [links];
               ResultCard.codeSection (get skillData "code_snippet") ]).
Proof.
  intros Hok. unfold ResultCard.skillSections, js_map. cbn [truthy].
  pose proof (map_indexed_spec ResultCard.skillSection skillData_ok
                (λ e, is_TypeError e = true) 0 l skillSection_spec) as Hs.
  destruct (map_indexed ResultCard.skillSection 0 l) as [ns|e] eqn:Em.
  2:{ destruct Hs as [Hs _]. congruence. }
  exists ns. split; [done|].
  destruct (map_indexed_lookup _ _ _ _ Em) as [Hlen Hl]. split; [done|].
  intros i d Hi. destruct (Hl i d Hi) as (n & Hn & Hf). cbn in Hf.
  assert (skillData_ok d = true) as Hd.
  { rewrite forallb_forall in Hok. apply Hok.
    apply list_elem_of_In, list_elem_of_lookup. eauto. }
  unfold skillData_ok in Hd. apply andb_true_iff in Hd as [Hd _].
  apply andb_true_iff in Hd as [Hd _]. apply negb_true_iff in Hd.
  unfold ResultCard.skillSection in Hf. rewrite (member_defined _ _ Hd) in Hf.
  cbn [mbind Completion_bind] in Hf.
  destruct (ResultCard.courseLinks (get d "courses")) as [links|e]; [|discriminate].
  cbn [mbind mret Completion_bind Completion_ret] in Hf. injection Hf as <-.
  by exists links.
Qed.

Lemma skill_sections_in_order_witness :
  match ResultCard.skillSections (get sample_plan "skillsWithCourses") with
  | Normal (NArr ns) => length ns = 1%nat
  | _ => False
  end.
Proof.
  change (get sample_plan "skillsWithCourses")
    with (JArr [ obj [ ("skill", JStr "Python");
                       ("courses", JArr [ obj [ ("title", JStr "Python Basics");
                                                ("url", JStr "https://example.com/course");
                                                ("platform", JStr "Example") ] ]) ] ]).
  destruct (skill_sections_in_order
              [ obj [ ("skill", JStr "Python");
                      ("courses", JArr [ obj [ ("title", JStr "Python Basics");
                                               ("url", JStr "https://example.com/course");
                                               ("platform", JStr "Example") ] ]) ] ]
              eq_refl) as (ns & -> & Hlen & _).
  exact Hlen.
Defined.

(** X11. The earlier card returns null for a null or undefined plan, and
    renders a plan exactly when the plan is falsy, or its [skillsToLearn]
    and [recommendedCourses] are each falsy or an array and no entry of
    [recommendedCourses] is null or undefined. On every other plan it
    throws a [TypeError]. *)
Theorem ResultCardV1_renders_iff (plan : JsValue) :
  ResultCardV1.ResultCard JNull = Normal (NValue JNull) ∧
  ResultCardV1.ResultCard JUndefined = Normal (NValue JNull) ∧
  ((∃ t, ResultCardV1.ResultCard plan = Normal t) ↔ renderable_v1 plan = true) ∧
  (∀ e, ResultCardV1.ResultCard plan = Throw e →
     renderable_v1 plan = false ∧ is_TypeError e = true).
Proof.
  split; [done|]. split; [done|].
  pose proof (ResultCardV1_spec plan) as H.
  destruct (ResultCardV1.ResultCard plan) as [t|e].
  - split; [|discriminate]. split; [done|]. by exists t.
  - destruct H as [H1 H2]. split.
    + split; [by intros [t [=]]|]. congruence.
    + by intros e' [= <-].
Qed.

Lemma ResultCardV1_renders_iff_witness :
  renderable_v1 (obj [("recommendedCourses", JArr [JNull])]) = false.
Proof.
  apply (proj2 (proj2 (proj2 (ResultCardV1_renders_iff
                                (obj [("recommendedCourses", JArr [JNull])]))))
           (TypeError "Cannot read properties of null (reading 'url')")).
  reflexivity.
Defined.



End DisplayLists.

(* ===================================================================== *)
(** ** From the answer to the page                                        *)
(* ===================================================================== *)

Section AnswerOnPage.

Import CareerPathGenerator.

Lemma plain_message_text (m : JsValue) :
  plain_message m = true → truthy m = true → message (thrown_Error m) ≠ "".
Proof.
  destruct m as [| |[|]|r|s|l|o]; try done.
  - cbn [truthy thrown_Error ToString message]. intros _ H E. subst s. done.
  - intros _ _. unfold thrown_Error. cbn [ToString]. by case_bool_decide.
Qed.



(** X14. When the server answers with an error status and the [message]
    under the body's [error] member is a string, or is not there at all,
    the user always gets to see an error: the state holds a message that
    is not empty - the string itself when it is not empty, the generic
    message otherwise - the plan is null, and the error block is drawn. *)
Theorem failed_response_shows_error (net : Fetch) (w : World) (resp : Response) :
  net (Api.request (currentRole (comp w)) (targetRole (comp w))) = Normal resp →
  ok resp = false →
  let m := optget (optget (Api.json_or_null resp) "error") "message" in
  plain_message m = true →
  let s' := comp (handleSubmit net w).2 in
  error s' ≠ "" ∧ plan s' = JNull ∧ draws_nothing (errorBlock s') = false ∧
  (∀ text, m = JStr text → text ≠ "" → error s' = text) ∧
  (truthy m = false → error s' = Api.generic_message).
Proof.
  intros Hnet Hok m Hplain s'. subst s'.
  rewrite handleSubmit_run, generateCareerPath_run, Hnet, Hok.
  cbn [fst snd comp error plan]. fold m. unfold or_js.
  assert (message (thrown_Error (if truthy m then m else JStr Api.generic_message)) ≠ "")
    as Hne.
  { destruct (truthy m) eqn:Ht; [by apply plain_message_text|done]. }
  split; [done|]. split; [done|]. split.
  - unfold errorBlock. cbn [error].
    destruct (truthy (JStr _)) eqn:E; [done|]. by apply truthy_JStr in E.
  - split.
    + intros text -> Ht. destruct (truthy (JStr text)) eqn:E; [done|].
      by apply truthy_JStr in E.
    + by intros ->.
Qed.

Lemma failed_response_shows_error_witness :
  error (comp (handleSubmit (net_fail wrapped_envelope) (page "Nurse" "Data Scientist")).2)
  = "currentRole must not be empty".
Proof.
  pose proof (failed_response_shows_error (net_fail wrapped_envelope)
                (page "Nurse" "Data Scientist")
                (mkResponse false (Normal wrapped_envelope))
                eq_refl eq_refl eq_refl) as H.
  cbv zeta in H. destruct H as (_ & _ & _ & H & _).
  apply (H "currentRole must not be empty"); [reflexivity|discriminate].
Defined.

(** X15. A submit leaves nothing of what the page showed before: the
    plan, the error and [isLoading] after it depend on the two roles and
    on the network only, not on the plan, the error or the loading flag
    the state held when the submit began. *)
Theorem submit_forgets_previous_outcome (net : Fetch) (w w' : World) :
  currentRole (comp w) = currentRole (comp w') →
  targetRole (comp w) = targetRole (comp w') →
  comp (handleSubmit net w).2 = comp (handleSubmit net w').2.
Proof.
  intros Hc Ht. rewrite !handleSubmit_run, !generateCareerPath_run.
  cbn [fst snd comp]. by rewrite Hc, Ht.
Qed.

Lemma submit_forgets_previous_outcome_witness :
  comp (handleSubmit (net_ok sample_plan)
          (mkWorld (mkState "Nurse" "Data Scientist" JNull false "Failed to fetch") [])).2
  = comp (handleSubmit (net_ok sample_plan) (page "Nurse" "Data Scientist")).2.
Proof.
  apply (submit_forgets_previous_outcome (net_ok sample_plan)
           (mkWorld (mkState "Nurse" "Data Scientist" JNull false "Failed to fetch") [])
           (page "Nurse" "Data Scientist") eq_refl eq_refl).
Defined.

(** A body whose skill is an object, not a string: the card returns an
    element, and React refuses to draw it. *)
Example object_child_breaks_page :
  resultBlock (mkState "Nurse" "Data Scientist"
                 (obj [ ("title", JStr "T");
                        ("skillsToLearn", JArr [obj [("name", JStr "Python")]]) ])
                 false "")
  = Throw (Error "Objects are not valid as a React child").
Proof. reflexivity. Qed.

Example object_with_toString_member :
  thrown_Error (obj [("toString", JNum "1")])
  = TypeError "Cannot convert object to primitive value" ∧
  thrown_Error (JArr [JNull; JStr "a"; obj []]) = Error ",a,[object Object]".
Proof. split; reflexivity. Qed.

Example no_break_space_is_blank :
  blank (String (Ascii.ascii_of_nat 194) (String (Ascii.ascii_of_nat 160) " ")) = true ∧
  char_length "→é" = 2%nat.
Proof. split; reflexivity. Qed.

End AnswerOnPage.
